(** * kvmd web client: the two video streamers

    A shallow embedding of the Direct H.264 streamer ([MediaStreamer]) and of
    the HTTP MJPEG streamer ([MjpegStreamer]) of the PiKVM web interface.

    Each streamer is a closure over a handful of mutable variables; every
    handler runs to completion on the single UI thread.  A handler is
    therefore a function from the closure's variables to the new variables,
    the list of calls it made to the outside (callbacks, socket, decoder,
    canvas, timers) and the way it completed: normally, or by a JavaScript
    exception.  The [async] handlers of the H.264 streamer only [await]
    values that are not pending promises, so their continuations run before
    any other callback is delivered and they are handlers like the others.
    The diagnostics written through [tools.info] are left out. *)

From Stdlib Require Import ZArith String List Bool Lia.
From Stdlib Require Import Strings.Byte.
From stdpp Require Import base gmap strings pretty.
Import ListNotations.
Local Open Scope string_scope.
Local Open Scope Z_scope.

(** ** Handlers as state transformers with exceptions and a call trace *)

Module Js.

(** How a JavaScript function body completes. *)
Inductive completion (A : Type) : Type :=
| Normal (a : A)
| Throw (ex : string).
Arguments Normal {A} a.
Arguments Throw {A} ex.

Record Run (S E A : Type) : Type := mkRun {
  outcome : completion A;
  final : S;
  calls : list E;
}.
Arguments mkRun {S E A} _ _ _.
Arguments outcome {S E A} _.
Arguments final {S E A} _.
Arguments calls {S E A} _.

Definition M (S E A : Type) : Type := S -> Run S E A.

Section Combinators.
Context {S E : Type}.

Definition ret {A} (a : A) : M S E A :=
  fun s => mkRun (Normal a) s [].

Definition bind {A B} (m : M S E A) (k : A -> M S E B) : M S E B :=
  fun s =>
    match m s with
    | mkRun (Normal a) s1 c1 =>
        match k a s1 with
        | mkRun o s2 c2 => mkRun o s2 (c1 ++ c2)
        end
    | mkRun (Throw ex) s1 c1 => mkRun (Throw ex) s1 c1
    end.

Definition throw {A} (ex : string) : M S E A :=
  fun s => mkRun (Throw ex) s [].

Definition call (e : E) : M S E unit :=
  fun s => mkRun (Normal tt) s [e].

Definition gets {A} (f : S -> A) : M S E A :=
  fun s => mkRun (Normal (f s)) s [].

Definition modify (f : S -> S) : M S E unit :=
  fun s => mkRun (Normal tt) (f s) [].

(** [try { body } finally { fin }]: [fin] always runs; an exception of
    [fin] replaces the completion of [body]. *)
Definition try_finally {A} (body : M S E A) (fin : M S E unit) : M S E A :=
  fun s =>
    match body s with
    | mkRun o s1 c1 =>
        match fin s1 with
        | mkRun (Normal _) s2 c2 => mkRun o s2 (c1 ++ c2)
        | mkRun (Throw ex) s2 c2 => mkRun (Throw ex) s2 (c1 ++ c2)
        end
    end.

(** [try { body } catch (ex) { handler(ex) }]. *)
Definition try_catch {A} (body : M S E A) (handler : string -> M S E A)
  : M S E A :=
  fun s =>
    match body s with
    | mkRun (Normal a) s1 c1 => mkRun (Normal a) s1 c1
    | mkRun (Throw ex) s1 c1 =>
        match handler ex s1 with
        | mkRun o s2 c2 => mkRun o s2 (c1 ++ c2)
        end
    end.

Definition when (b : bool) (m : M S E unit) : M S E unit :=
  if b then m else ret tt.

End Combinators.

(** [x === null]. *)
Definition is_null {A} (x : option A) : bool :=
  match x with None => true | Some _ => false end.

End Js.

Import Js.

Declare Scope js_scope.
Delimit Scope js_scope with js.
Notation "x <- m ;; k" := (bind m (fun x => k))
  (at level 100, m at next level, right associativity) : js_scope.
Notation "m ;; k" := (bind m (fun _ => k))
  (at level 100, right associativity) : js_scope.
Local Open Scope js_scope.

(** ** The external state snapshot handed to [ensureStream] *)

(** [state.source.online] and [state.stream.clients_stat], the latter a
    JavaScript object used as a map from client id to [{fps}]. *)
Record Snapshot : Type := mkSnapshot {
  source_online : bool;
  clients_stat : gmap string Z;
}.

(** ** Direct H.264 streamer *)

Module Media.

(** [VideoDecoder.state]. *)
Inductive CodecState : Type := Unconfigured | Configured | Closed.

(** A decoded frame; [frame_no] stands for the identity of the object. *)
Record VideoFrame : Type := mkFrame {
  displayWidth : Z;
  displayHeight : Z;
  frame_no : nat;
}.

Record Canvas : Type := mkCanvas {
  width : Z;
  height : Z;
}.

(** The socket object held in [__ws]: whether its [onclose] handler is
    still attached and whether [close()] was called on it. *)
Record WebSocket : Type := mkWs {
  onclose_attached : bool;
  close_called : bool;
}.

(** [formats] of a ["media"] event: [formats.h264.profile_level_id], when
    H.264 is advertised. *)
Record Formats : Type := mkFormats {
  h264 : option string;
}.

Inductive Rotation : Type := RotMinusHalfPi | RotMinusPi | RotHalfPi.

(** Calls to the outside, in program order. *)
Inductive Call : Type :=
| SetActive
| SetInactive
| SetInfo (is_active online : bool) (text : string)
| OrganizeHook
| NewWebSocket
| WsSendProbe                       (* __ws.send(new Uint8Array([0])) *)
| WsSendStart                       (* the "start" video/h264 request *)
| WsClose
| SetInterval (handle : positive) (ms : Z)
| ClearInterval (handle : positive)
| SetTimeoutEnsureMedia (ms : Z)    (* setTimeout(() => __ensureMedia(true), ms) *)
| NewVideoDecoder
| DecoderClose
| DecoderConfigure (codec : string)
| DecoderDecode (key : bool) (raw : list byte)
| FrameClose (f : VideoFrame)
| RequestAnimationFrame
| CtxSave
| CtxRestore
| CtxTranslate (x y : Z)
| CtxRotate (r : Rotation)
| CtxDrawImage (f : VideoFrame).

(** The closure variables of [MediaStreamer]. *)
Record State : Type := mkState {
  stop : bool;
  ensuring : bool;
  ws : option WebSocket;
  ping_timer : option positive;
  missed_heartbeats : Z;
  codec : string;
  decoder : option CodecState;
  frame : option VideoFrame;
  canvas : Canvas;
  state : option Snapshot;
  fps_accum : Z;
}.

Definition set_stop v s := mkState v (ensuring s) (ws s) (ping_timer s)
  (missed_heartbeats s) (codec s) (decoder s) (frame s) (canvas s) (state s) (fps_accum s).
Definition set_ensuring v s := mkState (stop s) v (ws s) (ping_timer s)
  (missed_heartbeats s) (codec s) (decoder s) (frame s) (canvas s) (state s) (fps_accum s).
Definition set_ws v s := mkState (stop s) (ensuring s) v (ping_timer s)
  (missed_heartbeats s) (codec s) (decoder s) (frame s) (canvas s) (state s) (fps_accum s).
Definition set_ping_timer v s := mkState (stop s) (ensuring s) (ws s) v
  (missed_heartbeats s) (codec s) (decoder s) (frame s) (canvas s) (state s) (fps_accum s).
Definition set_missed_heartbeats v s := mkState (stop s) (ensuring s) (ws s) (ping_timer s)
  v (codec s) (decoder s) (frame s) (canvas s) (state s) (fps_accum s).
Definition set_codec v s := mkState (stop s) (ensuring s) (ws s) (ping_timer s)
  (missed_heartbeats s) v (decoder s) (frame s) (canvas s) (state s) (fps_accum s).
Definition set_decoder v s := mkState (stop s) (ensuring s) (ws s) (ping_timer s)
  (missed_heartbeats s) (codec s) v (frame s) (canvas s) (state s) (fps_accum s).
Definition set_frame v s := mkState (stop s) (ensuring s) (ws s) (ping_timer s)
  (missed_heartbeats s) (codec s) (decoder s) v (canvas s) (state s) (fps_accum s).
Definition set_canvas v s := mkState (stop s) (ensuring s) (ws s) (ping_timer s)
  (missed_heartbeats s) (codec s) (decoder s) (frame s) v (state s) (fps_accum s).
Definition set_state v s := mkState (stop s) (ensuring s) (ws s) (ping_timer s)
  (missed_heartbeats s) (codec s) (decoder s) (frame s) (canvas s) v (fps_accum s).
Definition set_fps_accum v s := mkState (stop s) (ensuring s) (ws s) (ping_timer s)
  (missed_heartbeats s) (codec s) (decoder s) (frame s) (canvas s) (state s) v.

(** The variables right after the constructor ran, for a canvas [c]. *)
Definition init (c : Canvas) : State :=
  mkState false false None None 0 "" None None c None 0.

(** What is fixed for the life of a streamer: the orientation it was
    built with and the capabilities of the browser. *)
Record Platform : Type := mkPlatform {
  orient : Z;
  is_firefox : bool;
  is_https : bool;
  has_VideoDecoder : bool;
}.

(** What the platform answers during one handler invocation: which of the
    calls that the source guards with [try] raise, and the handle that
    [setInterval] hands out. *)
Record Answers : Type := mkAnswers {
  decoder_close_throws : bool;
  frame_close_throws : bool;
  configure_throws : bool;
  decode_throws : bool;
  draw_throws : bool;
  interval_handle : positive;
}.

Abbreviation M := (Js.M State Call).

(** A message delivered to [__ws.onmessage], after [JSON.parse] for a text
    message ([ev.event_type] and [ev.event.video]). *)
Inductive Message : Type :=
| TextMessage (event_type : string) (video : Formats)
| BinaryMessage (data : list byte).

Section Handlers.
Variable pf : Platform.
Variable ans : Answers.

Definition closeFrame (f : VideoFrame) : M unit :=
  if negb (is_firefox pf) then
    call (FrameClose f) ;;
    when (frame_close_throws ans) (throw "InvalidStateError")
  else ret tt.

Definition closeDecoder : M unit :=
  d <- gets decoder ;;
  match d with
  | Some _ =>
      try_finally
        (call DecoderClose ;;
         when (decoder_close_throws ans) (throw "InvalidStateError"))
        (modify (set_codec "") ;;
         modify (set_decoder None) ;;
         fr <- gets frame ;;
         match fr with
         | Some f => try_finally (closeFrame f) (modify (set_frame None))
         | None => ret tt
         end)
  | None => ret tt
  end.

Definition renderFrame (f : VideoFrame) : M unit :=
  fr <- gets frame ;;
  match fr with
  | None => modify (set_frame (Some f)) ;; call RequestAnimationFrame
  | Some _ => closeFrame f
  end.

(** [width] and [height] as [__drawPendingFrame] computes them. *)
Definition display_size (f : VideoFrame) : Z * Z :=
  if (orient pf =? 90) || (orient pf =? 270)
  then (displayHeight f, displayWidth f)
  else (displayWidth f, displayHeight f).

Definition drawImage (f : VideoFrame) : M unit :=
  call (CtxDrawImage f) ;;
  when (draw_throws ans) (throw "InvalidStateError").

(** The [finally] block reads [__frame] again; nothing in the [try]
    block assigns it, so it is the frame [f] read on entry. *)
Definition drawPendingFrame : M unit :=
  fr <- gets frame ;;
  match fr with
  | None => ret tt
  | Some f =>
      try_finally
        (let '(w, h) := display_size f in
         c <- gets canvas ;;
         (if negb (width c =? w) || negb (height c =? h) then
            modify (set_canvas (mkCanvas w h)) ;;
            call OrganizeHook
          else ret tt) ;;
         (if orient pf =? 0 then drawImage f
          else
            call CtxSave ;;
            try_finally
              ((if orient pf =? 90 then
                  call (CtxTranslate 0 h) ;; call (CtxRotate RotMinusHalfPi)
                else if orient pf =? 180 then
                  call (CtxTranslate w h) ;; call (CtxRotate RotMinusPi)
                else if orient pf =? 270 then
                  call (CtxTranslate w 0) ;; call (CtxRotate RotHalfPi)
                else ret tt) ;;
               drawImage f)
              (call CtxRestore)) ;;
         acc <- gets fps_accum ;;
         modify (set_fps_accum (acc + 1)))
        (closeFrame f ;;
         modify (set_frame None))
  end.

Definition wsCloseHandler : M unit :=
  t <- gets ping_timer ;;
  match t with
  | Some h => call (ClearInterval h) ;; modify (set_ping_timer None)
  | None => ret tt
  end ;;
  closeDecoder ;;
  modify (set_missed_heartbeats 0) ;;
  modify (set_fps_accum 0) ;;
  modify (set_ws None) ;;
  stopped <- gets stop ;;
  when (negb stopped) (call (SetTimeoutEnsureMedia 1000)).

Definition wsForceClose : M unit :=
  w <- gets ws ;;
  match w with
  | Some _ => modify (set_ws (Some (mkWs false true))) ;; call WsClose
  | None => ret tt
  end ;;
  wsCloseHandler ;;
  call SetInactive.

Definition wsErrorHandler (ev : string) : M unit :=
  call (SetInfo false false ev) ;;
  wsForceClose.

(** [__ws.send(...)]: a [TypeError] when [__ws] is [null]. *)
Definition ws_send (payload : Call) : M unit :=
  w <- gets ws ;;
  match w with
  | Some _ => call payload
  | None => throw "TypeError"
  end.

Definition ping : M unit :=
  try_catch
    (m <- gets missed_heartbeats ;;
     modify (set_missed_heartbeats (m + 1)) ;;
     m' <- gets missed_heartbeats ;;
     (if 5 <=? m' then throw "Too many missed heartbeats" else ret tt) ;;
     ws_send WsSendProbe ;;
     d <- gets decoder ;;
     match d with
     | Some Configured =>
         sn <- gets state ;;
         let online := match sn with
                       | Some x => source_online x
                       | None => false
                       end in
         acc <- gets fps_accum ;;
         modify (set_fps_accum 0) ;;
         call (SetInfo true online (pretty acc ++ " fps dynamic"))
     | _ => ret tt
     end)
    wsErrorHandler.

Definition wsOpenHandler : M unit :=
  modify (set_missed_heartbeats 0) ;;
  call (SetInterval (interval_handle ans) 1000) ;;
  modify (set_ping_timer (Some (interval_handle ans))).

Definition ensureMedia (internal : bool) : M unit :=
  w <- gets ws ;;
  stopped <- gets stop ;;
  en <- gets ensuring ;;
  if is_null w && negb stopped && (negb en || internal) then
    modify (set_ensuring true) ;;
    call SetInactive ;;
    call (SetInfo false false "") ;;
    call NewWebSocket ;;
    modify (set_ws (Some (mkWs true false)))
  else ret tt.

Definition ensureStream (sn : option Snapshot) : M unit :=
  modify (set_state sn) ;;
  modify (set_stop false) ;;
  ensureMedia false.

Definition stopStream : M unit :=
  modify (set_stop true) ;;
  modify (set_ensuring false) ;;
  wsForceClose ;;
  call (SetInfo false false "").

Definition setupCodec (formats : Formats) : M unit :=
  closeDecoder ;;
  match h264 formats with
  | None => call (SetInfo false false "No H.264 stream available on PiKVM")
  | Some profile_level_id =>
      if negb (has_VideoDecoder pf) then
        call (SetInfo false false
                (if negb (is_https pf)
                 then "Direct H.264 requires HTTPS"
                 else "This browser can't handle direct H.264 stream"))
      else
        modify (set_codec ("avc1." ++ profile_level_id)) ;;
        ws_send WsSendStart
  end.

Definition wsJsonHandler (ev_type : string) (video : Formats) : M unit :=
  if String.eqb ev_type "media" then setupCodec video else ret tt.

(** [__decoder.configure(...)] leaves the decoder in state
    ["configured"] unless it raises. *)
Definition ensureDecoder (key : bool) : M bool :=
  c <- gets codec ;;
  if String.eqb c "" then ret false
  else
    d <- gets decoder ;;
    match d with
    | None | Some Closed =>
        c0 <- gets codec ;;
        let started := negb (String.eqb c0 "") in
        closeDecoder ;;
        modify (set_codec c0) ;;
        call NewVideoDecoder ;;
        modify (set_decoder (Some Unconfigured)) ;;
        when started (ws_send WsSendProbe)
    | Some _ => ret tt
    end ;;
    d1 <- gets decoder ;;
    go_on <- match d1 with
             | Some Configured => ret true
             | Some _ =>
                 if negb key then ret false
                 else
                   c1 <- gets codec ;;
                   call (DecoderConfigure c1) ;;
                   when (configure_throws ans) (throw "TypeError") ;;
                   modify (set_decoder (Some Configured)) ;;
                   ret true
             | None => throw "TypeError"
             end ;;
    if go_on then
      d2 <- gets decoder ;;
      match d2 with
      | Some Configured => call SetActive ;; ret true
      | _ => ret false
      end
    else ret false.

(** The chunk's timestamp, read from the clock, is left out. *)
Definition processFrame (key : bool) (raw : list byte) : M unit :=
  call (DecoderDecode key raw) ;;
  when (decode_throws ans) (throw "DataError").

(** [header[i] === b] on the [Uint8Array] header; an index past the end
    reads [undefined]. *)
Definition byte_is (x : option byte) (b : byte) : bool :=
  match x with
  | Some y => Byte.eqb y b
  | None => false
  end.

(** [!!header[i]]. *)
Definition byte_truthy (x : option byte) : bool :=
  match x with
  | Some y => negb (Byte.eqb y x00)
  | None => false
  end.

Definition wsBinHandler (data : list byte) : M unit :=
  let header := firstn 2 data in
  if byte_is (nth_error header 0) xff then        (* Pong *)
    modify (set_missed_heartbeats 0)
  else if byte_is (nth_error header 0) x01 then   (* Video frame *)
    let key := byte_truthy (nth_error header 1) in
    ok <- ensureDecoder key ;;
    if ok then processFrame key (skipn 2 data) else ret tt
  else ret tt.

Definition onmessage (msg : Message) : M unit :=
  try_catch
    match msg with
    | TextMessage ev_type video => wsJsonHandler ev_type video
    | BinaryMessage data => wsBinHandler data
    end
    wsErrorHandler.

End Handlers.

(** The calls made by [ensureStream] invoked once per snapshot of [sns],
    with nothing else happening in between. *)
Fixpoint ensureStream_repeatedly (sns : list (option Snapshot)) (s : State)
  : list Call :=
  match sns with
  | [] => []
  | sn :: rest =>
      (calls (ensureStream sn s)
       ++ ensureStream_repeatedly rest (final (ensureStream sn s)))%list
  end.

(** *** The streamer as a transition system *)

(** What can happen to a streamer: the two calls of its owner, and the
    callbacks the browser delivers for the socket held in [__ws], the
    heartbeat interval, the decoder and the display refresh. *)
Inductive Event : Type :=
| EnsureStream (sn : option Snapshot)
| StopStream
| SocketOpened
| SocketError (ev : string)
| SocketClosed
| SocketMessage (msg : Message)
| PingTick
| DecoderOutput (f : VideoFrame)
| DecoderFailed
| AnimationFrame
| ReconnectTimeout.

(** Whether the browser can deliver the event in state [s]: a socket
    callback needs the socket (and [onclose] its handler), a heartbeat
    tick a running interval, a decoded frame a configured decoder. *)
Definition enabled (ev : Event) (s : State) : bool :=
  match ev with
  | EnsureStream _ | StopStream | AnimationFrame | ReconnectTimeout => true
  | SocketOpened | SocketMessage _ =>
      match ws s with Some w => negb (close_called w) | None => false end
  | SocketError _ => negb (is_null (ws s))
  | SocketClosed =>
      match ws s with Some w => onclose_attached w | None => false end
  | PingTick => negb (is_null (ping_timer s))
  | DecoderOutput _ =>
      match decoder s with Some Configured => true | _ => false end
  | DecoderFailed => negb (is_null (decoder s))
  end.

Definition handler (pf : Platform) (ans : Answers) (ev : Event) : M unit :=
  match ev with
  | EnsureStream sn => ensureStream sn
  | StopStream => stopStream pf ans
  | SocketOpened => wsOpenHandler ans
  | SocketError e => wsErrorHandler pf ans e
  | SocketClosed => wsCloseHandler pf ans
  | SocketMessage msg => onmessage pf ans msg
  | PingTick => ping pf ans
  | DecoderOutput f => renderFrame pf ans f
  | DecoderFailed => modify (set_decoder (Some Closed))
  | AnimationFrame => drawPendingFrame pf ans
  | ReconnectTimeout => ensureMedia true
  end.

Definition step (pf : Platform) (ans : Answers) (ev : Event) (s : State) : State :=
  if enabled ev s then final (handler pf ans ev s) else s.

(** The state after a history of events, oldest first. *)
Definition run (pf : Platform) (history : list (Answers * Event)) (s : State) : State :=
  fold_left (fun s' '(ans, ev) => step pf ans ev s') history s.

(** The states a streamer can be in: those its constructor leaves, and those
    an event leads to from there. *)
Inductive reachable (pf : Platform) : State -> Prop :=
| reach_init (c : Canvas) : reachable pf (init c)
| reach_step (ans : Answers) (ev : Event) (s : State) :
    reachable pf s -> reachable pf (step pf ans ev s).

(** A heartbeat interval runs only on a socket, and a frame waits to be
    drawn only while the decoder that produced it exists. *)
Definition inv (s : State) : Prop :=
  (ping_timer s <> None -> ws s <> None) /\
  (frame s <> None -> decoder s <> None).

(** The platform's [close()] methods return normally.  For
    [decoder.close()] that leaves out a decoder that is closed already, on
    which it raises. *)
Definition closes_return (ans : Answers) : Prop :=
  decoder_close_throws ans = false /\ frame_close_throws ans = false.

Definition is_reconnect (c : Call) : bool :=
  match c with SetTimeoutEnsureMedia _ => true | _ => false end.

Definition is_frame_close (c : Call) : bool :=
  match c with FrameClose _ => true | _ => false end.

Definition is_new_socket (c : Call) : bool :=
  match c with NewWebSocket => true | _ => false end.

(** What [getResolution] returns. *)
Record Resolution : Type := mkResolution {
  real_width : Z;
  real_height : Z;
  view_width : Z;
  view_height : Z;
}.

(** [a || b] on numbers: [b] when [a] is 0. *)
Definition num_or (a b : Z) : Z := if a =? 0 then b else a.

(** [getResolution]; the layout size of the canvas ([offsetWidth],
    [offsetHeight]) is the platform's answer. *)
Definition getResolution (offsetWidth offsetHeight : Z) (s : State) : Resolution :=
  mkResolution (num_or (width (canvas s)) offsetWidth)
               (num_or (height (canvas s)) offsetHeight)
               offsetWidth offsetHeight.

(** What every reachable state satisfies besides [inv]: the missed-beat
    counter stays within 0..5 and below 5 while the heartbeat runs, the
    frame counter is not negative, a decoder exists only with a codec
    identifier, and a socket that was not closed means the streamer is
    neither stopped nor without its attempt mark. *)
Definition bounds (s : State) : Prop :=
  0 <= missed_heartbeats s <= 5
  /\ (ping_timer s <> None -> missed_heartbeats s <= 4)
  /\ 0 <= fps_accum s
  /\ (decoder s <> None -> codec s <> "")
  /\ (forall w, ws s = Some w -> close_called w = false ->
      stop s = false /\ ensuring s = true).

(** Heartbeat ticks only, one per answer. *)
Definition only_ticks (answers : list Answers) : list (Answers * Event) :=
  map (fun a => (a, PingTick)) answers.

(** Decoded frames, each followed by the display refresh that draws it. *)
Definition decoded_and_drawn (frames : list (Answers * VideoFrame))
  : list (Answers * Event) :=
  flat_map (fun '(a, f) => [(a, DecoderOutput f); (a, AnimationFrame)]) frames.

Definition count_calls (p : Call -> bool) (cs : list Call) : nat :=
  length (List.filter p cs).

Definition is_save (c : Call) : bool :=
  match c with CtxSave => true | _ => false end.

Definition is_restore (c : Call) : bool :=
  match c with CtxRestore => true | _ => false end.

Definition is_draw (c : Call) : bool :=
  match c with CtxDrawImage _ => true | _ => false end.



Definition is_start (c : Call) : bool :=
  match c with WsSendStart => true | _ => false end.

Definition is_ensure_stream (ev : Event) : bool :=
  match ev with EnsureStream _ => true | _ => false end.

(** The calls a history makes, oldest first; an event that is not enabled
    is not delivered and calls nothing. *)
Fixpoint trace (pf : Platform) (history : list (Answers * Event)) (s : State)
  : list Call :=
  match history with
  | [] => []
  | (a, ev) :: rest =>
      ((if enabled ev s then calls (handler pf a ev s) else [])
       ++ trace pf rest (step pf a ev s))%list
  end.

(** Neither drawing nor releasing a frame raises. *)
Definition draws_return (a : Answers) : Prop :=
  draw_throws a = false /\ frame_close_throws a = false.

(** Sample inputs: two browsers, answers without and with an exception,
    frames, and the histories of a session that is connected, that has
    missed four beats, that has negotiated H.264 and configured its decoder
    on a keyframe, that holds one decoded frame, whose decoder then failed,
    and that missed four beats after that. *)
Definition chromium (o : Z) : Platform := mkPlatform o false true true.
Definition firefox (o : Z) : Platform := mkPlatform o true true true.
Definition quiet : Answers := mkAnswers false false false false false 7%positive.
Definition draw_fails : Answers := mkAnswers false false false false true 7%positive.
Definition close_fails : Answers := mkAnswers true false false false false 7%positive.
Definition decode_fails : Answers := mkAnswers false false false true false 7%positive.
Definition blank_canvas : Canvas := mkCanvas 300 150.
Definition sample_frame (n : nat) : VideoFrame := mkFrame 1920 1080 n.
Definition media_h264 : Message := TextMessage "media" (mkFormats (Some "42E01F")).
Definition keyframe : Message := BinaryMessage [x01; x01; x00; x00; x00; x01].
Definition connected : list (Answers * Event) :=
  [(quiet, EnsureStream None); (quiet, SocketOpened)].
Definition decoding : list (Answers * Event) :=
  (connected ++ [(quiet, SocketMessage media_h264); (quiet, SocketMessage keyframe)])%list.
Definition streaming : list (Answers * Event) :=
  (decoding ++ [(quiet, DecoderOutput (sample_frame 0))])%list.
Definition four_missed : list (Answers * Event) :=
  (connected ++ repeat (quiet, PingTick) 4)%list.
Definition decoder_failed : list (Answers * Event) :=
  (streaming ++ [(quiet, DecoderFailed)])%list.
Definition failed_four : list (Answers * Event) :=
  (decoder_failed ++ repeat (quiet, PingTick) 4)%list.
Definition four_missed_state (pf : Platform) : State :=
  run pf four_missed (init blank_canvas).
Definition failed_four_state (pf : Platform) : State :=
  run pf failed_four (init blank_canvas).
Definition decoder_failed_state (pf : Platform) : State :=
  run pf decoder_failed (init blank_canvas).
Definition decoding_state (pf : Platform) : State :=
  run pf decoding (init blank_canvas).
Definition streaming_state (pf : Platform) : State :=
  run pf streaming (init blank_canvas).

End Media.

(** ** HTTP MJPEG streamer *)

Module Mjpeg.

(** Calls to the outside, in program order. *)
Inductive Call : Type :=
| SetActive
| SetInactive
| SetInfo (is_active online : bool) (text : string)
| OrganizeHook
| SetInterval (handle : positive) (ms : Z)   (* setInterval(__checkStream, ms) *)
| ClearInterval (handle : positive)
| ImageSetSrc (url : string).                (* $("stream-image").src = url *)

(** The closure variables of [MjpegStreamer], and the [src] of the
    ["stream-image"] element it drives, kept as the string last assigned
    (the placeholder test is a suffix test for that reason).  [__fps] holds
    a number or [undefined] ([None]). *)
Record State : Type := mkState {
  key : string;
  id : string;
  fps : option Z;
  state : option Snapshot;
  timer : option positive;
  timer_retries : Z;
  image_src : string;
}.

Definition set_key v s := mkState v (id s) (fps s) (state s) (timer s)
  (timer_retries s) (image_src s).
Definition set_id v s := mkState (key s) v (fps s) (state s) (timer s)
  (timer_retries s) (image_src s).
Definition set_fps v s := mkState (key s) (id s) v (state s) (timer s)
  (timer_retries s) (image_src s).
Definition set_state v s := mkState (key s) (id s) (fps s) v (timer s)
  (timer_retries s) (image_src s).
Definition set_timer v s := mkState (key s) (id s) (fps s) (state s) v
  (timer_retries s) (image_src s).
Definition set_timer_retries v s := mkState (key s) (id s) (fps s) (state s) (timer s)
  v (image_src s).
Definition set_image_src v s := mkState (key s) (id s) (fps s) (state s) (timer s)
  (timer_retries s) v.

(** The variables right after the constructor ran: [k] is the id that
    [tools.makeRandomId()] returned, [src] the image shown. *)
Definition init (k src : string) : State :=
  mkState k "" (Some (-1)) None None 0 src.

(** What is fixed for the life of a streamer.  [ROOT_PREFIX] comes from
    [vars.js] and the browser flags from [tools.js]; both files are outside
    the sources at hand, so they are parameters, as is the built-in
    [encodeURIComponent]. *)
Record Platform : Type := mkPlatform {
  ROOT_PREFIX : string;
  encodeURIComponent : string -> string;
  is_safari : bool;
  is_ios : bool;
  is_chrome : bool;
  is_blink : bool;
}.

(** What the platform answers during one handler invocation: the value of
    the [stream_client] cookie ([None] when it is not set), the id that
    [tools.makeRandomId()] returns and the handle of [setInterval]. *)
Record Answers : Type := mkAnswers {
  cookie : option string;
  random_id : string;
  interval_handle : positive;
}.

Abbreviation M := (Js.M State Call).

(** *** The few JavaScript string operations the streamer uses *)

(** [s.slice(n)]. *)
Fixpoint slice_from (n : nat) (s : string) : string :=
  match n, s with
  | O, _ => s
  | S n', String _ s' => slice_from n' s'
  | S _, EmptyString => EmptyString
  end.

(** [s.indexOf("/")], [None] standing for [-1]. *)
Definition indexOf_slash (s : string) : option nat := String.index 0 "/" s.

(** [s.slice(s.indexOf("/") + 1)]; [slice(0)] when there is no slash. *)
Definition after_first_slash (s : string) : string :=
  match indexOf_slash s with
  | Some i => slice_from (S i) s
  | None => s
  end.

Definition startsWith (s p : string) : bool := String.prefix p s.

Definition endsWith (s suffix : string) : bool :=
  (String.length suffix <=? String.length s)%nat
  && String.eqb (slice_from (String.length s - String.length suffix) s) suffix.

(** Reading property [name] of a string primitive as a number: its
    [length], and [undefined] ([None]) for a name that strings lack. *)
Definition string_prop (s name : string) : option Z :=
  if String.eqb name "length" then Some (Z.of_nat (String.length s)) else None.

(** [v > n]; [undefined > n] is [false]. *)
Definition js_gt (v : option Z) (n : Z) : bool :=
  match v with
  | Some x => n <? x
  | None => false
  end.

(** [v < n] and [v >= n]; both are [false] of [undefined]. *)
Definition js_lt (v : option Z) (n : Z) : bool :=
  match v with
  | Some x => x <? n
  | None => false
  end.

Definition js_ge (v : option Z) (n : Z) : bool :=
  match v with
  | Some x => n <=? x
  | None => false
  end.

(** A number or [undefined] inside a template string. *)
Definition js_string (v : option Z) : string :=
  match v with
  | Some x => pretty x
  | None => "undefined"
  end.

(** The property names every object inherits from [Object.prototype]
    (ECMAScript, with its annex B); their values there are functions, and
    the prototype object itself for ["__proto__"]. *)
Definition object_prototype_names : list string :=
  ["constructor"; "hasOwnProperty"; "isPrototypeOf"; "propertyIsEnumerable";
   "toLocaleString"; "toString"; "valueOf"; "__proto__";
   "__defineGetter__"; "__defineSetter__"; "__lookupGetter__";
   "__lookupSetter__"].

Definition inherited (name : string) : bool :=
  existsb (String.eqb name) object_prototype_names.

(** [name in obj] on the [clients_stat] object: its own keys and the names
    it inherits. *)
Definition js_in (name : string) (obj : gmap string Z) : bool :=
  bool_decide (is_Some (obj !! name)) || inherited name.

(** [obj[name].fps] on the [clients_stat] object: the frame rate of an own
    entry; [undefined] for an inherited name, whose value has no [fps]; and
    a [TypeError] (the outer [None]) for a name that is not found, because
    [obj[name]] is [undefined] then. *)
Definition entry_fps (name : string) (obj : gmap string Z) : option (option Z) :=
  match obj !! name with
  | Some f => Some (Some f)
  | None => if inherited name then Some None else None
  end.

Section Handlers.
Variable pf : Platform.
Variable ans : Answers.

(** [__id in __state.stream.clients_stat]: a [TypeError] when [__state]
    is [null]. *)
Definition id_in_clients_stat : M bool :=
  sn <- gets state ;;
  i <- gets id ;;
  match sn with
  | Some x => ret (js_in i (clients_stat x))
  | None => throw "TypeError"
  end.

Definition setStreamActive : M unit :=
  old_fps <- gets fps ;;
  sn <- gets state ;;
  i <- gets id ;;
  match sn with
  | Some x =>
      match entry_fps i (clients_stat x) with
      | Some f =>
          modify (set_fps f) ;;
          when (js_lt old_fps 0) (call SetActive) ;;
          call (SetInfo true (source_online x) (js_string f ++ " fps dynamic"))
      | None => throw "TypeError"
      end
  | None => throw "TypeError"
  end.

Definition setStreamInactive : M unit :=
  old_fps <- gets fps ;;
  modify (set_key (random_id ans)) ;;
  modify (set_id "") ;;
  modify (set_fps (Some (-1))) ;;
  modify (set_state None) ;;
  when (js_ge old_fps 0)
    (call SetInactive ;;
     call (SetInfo false false "")).

Definition ensureChecking : M unit :=
  t <- gets timer ;;
  match t with
  | None =>
      modify (set_timer_retries 10) ;;
      call (SetInterval (interval_handle ans) 100) ;;
      modify (set_timer (Some (interval_handle ans)))
  | Some _ => ret tt
  end.

Definition stopChecking : M unit :=
  t <- gets timer ;;
  match t with
  | Some h => call (ClearInterval h)
  | None => ret tt
  end ;;
  modify (set_timer None) ;;
  modify (set_timer_retries 0).

Definition findId : M unit :=
  i <- gets id ;;
  k <- gets key ;;
  match cookie ans with
  | Some sc =>
      if (String.length i =? 0)%nat
         && negb (String.eqb sc "")
         && startsWith sc (k ++ "/")
      then modify (set_id (after_first_slash sc))
      else ret tt
  | None => ret tt
  end.

Definition ensureStream (sn : option Snapshot) : M unit :=
  match sn with
  | Some x =>
      modify (set_state (Some x)) ;;
      findId ;;
      i <- gets id ;;
      present <- (if js_gt (string_prop i "length") 0
                  then id_in_clients_stat else ret false) ;;
      if present then
        setStreamActive ;;
        stopChecking ;;
        call OrganizeHook
      else ensureChecking
  | None =>
      stopChecking ;;
      setStreamInactive
  end.

Definition blank : string := ROOT_PREFIX pf ++ "share/png/blank-stream.png".

Definition stopStream : M unit :=
  ensureStream None ;;
  src <- gets image_src ;;
  if negb (endsWith src blank) then
    call (ImageSetSrc blank) ;;
    modify (set_image_src blank)
  else ret tt.

(** The stream URL for session key [k], with the WebKit or Blink
    workaround appended. *)
Definition stream_path (k : string) : string :=
  let path := ROOT_PREFIX pf ++ "streamer/stream?key=" ++ encodeURIComponent pf k in
  if is_safari pf || is_ios pf then path ++ "&dual_final_frames=1"
  else if is_chrome pf || is_blink pf then path ++ "&advance_headers=1"
  else path.

(** The first test reads the property [legnth], as the source does. *)
Definition checkStream : M unit :=
  findId ;;
  i <- gets id ;;
  present <- (if js_gt (string_prop i "legnth") 0
              then id_in_clients_stat else ret false) ;;
  if present then
    setStreamActive ;;
    stopChecking
  else
    retries <- gets timer_retries ;;
    if js_gt (string_prop i "length") 0 && (0 <=? retries) then
      modify (set_timer_retries (retries - 1))
    else
      setStreamInactive ;;
      stopChecking ;;
      k <- gets key ;;
      call (ImageSetSrc (stream_path k)) ;;
      modify (set_image_src (stream_path k)).

End Handlers.

(** The [else] branch of [__checkStream] in closed form: the variables it
    leaves and the calls it makes, from a state [s] with [ans] the answers
    of the platform. *)
Definition failure_path (pf : Platform) (ans : Answers) (s : State)
  : Run State Call unit :=
  mkRun (Normal tt)
    (mkState (random_id ans) "" (Some (-1)) None None 0
       (stream_path pf (random_id ans)))
    ((if js_ge (fps s) 0 then [SetInactive; SetInfo false false ""] else [])
     ++ match timer s with
        | Some h => [ClearInterval h]
        | None => []
        end
     ++ [ImageSetSrc (stream_path pf (random_id ans))])%list.

(** [n] consecutive timer ticks; [answers] gives the platform's answers
    for each of them, first tick first.  The timer only fires while it is
    set. *)
Fixpoint ticks (pf : Platform) (answers : list Answers) (s : State)
  : State * list Call :=
  match answers with
  | [] => (s, [])
  | ans :: rest =>
      match timer s with
      | Some _ =>
          let r := checkStream pf ans s in
          let '(s', cs) := ticks pf rest (final r) in
          (s', (calls r ++ cs)%list)
      | None => (s, [])
      end
  end.

(** *** The streamer as a transition system *)

(** The two calls of the owner and the tick of the polling interval, which
    fires only while the interval is set. *)
Inductive Event : Type :=
| EnsureStream (sn : option Snapshot)
| StopStream
| CheckTick.

Definition enabled (ev : Event) (s : State) : bool :=
  match ev with
  | EnsureStream _ | StopStream => true
  | CheckTick => negb (is_null (timer s))
  end.

Definition handler (pf : Platform) (ans : Answers) (ev : Event) : M unit :=
  match ev with
  | EnsureStream sn => ensureStream ans sn
  | StopStream => stopStream pf ans
  | CheckTick => checkStream pf ans
  end.

Definition step (pf : Platform) (ans : Answers) (ev : Event) (s : State) : State :=
  if enabled ev s then final (handler pf ans ev s) else s.

Inductive reachable (pf : Platform) : State -> Prop :=
| reach_init (k src : string) : reachable pf (init k src)
| reach_step (ans : Answers) (ev : Event) (s : State) :
    reachable pf s -> reachable pf (step pf ans ev s).

(** What every reachable state satisfies: the budget is 0 without a timer
    and within -1..10 with one, the timer runs only while a snapshot is
    held, and without a snapshot the streamer has no client id and no frame
    rate. *)
Definition bounds (s : State) : Prop :=
  (timer s = None -> timer_retries s = 0)
  /\ -1 <= timer_retries s <= 10
  /\ (timer s <> None -> state s <> None)
  /\ (state s = None -> id s = "" /\ fps s = Some (-1)).

Definition is_set_interval (c : Call) : bool :=
  match c with SetInterval _ _ => true | _ => false end.

Definition is_set_active (c : Call) : bool :=
  match c with SetActive => true | _ => false end.

Definition is_set_inactive (c : Call) : bool :=
  match c with SetInactive => true | _ => false end.

Definition is_image_src (c : Call) : bool :=
  match c with ImageSetSrc _ => true | _ => false end.

(** Sample inputs: a Blink browser, a snapshot that lists client ["42"],
    the answers of a platform whose cookie is not set yet and of one whose
    cookie is ["K/42"] or ["K/constructor"], a streamer with session key
    ["K"] that was asked
    for the stream before the cookie arrived, so that it polls, the same
    streamer once it is active, and a snapshot that lists nobody. *)
Definition blink : Platform := mkPlatform "/" (fun k => k) false false true true.
Definition lists_42 : Snapshot := mkSnapshot true {["42" := 25]}.
Definition no_cookie : Answers := mkAnswers None "K1" 3%positive.
Definition cookie_42 : Answers := mkAnswers (Some "K/42") "K2" 4%positive.
Definition polling : State :=
  final (ensureStream no_cookie (Some lists_42) (init "K" "")).
Definition lists_nobody : Snapshot := mkSnapshot true ∅.

End Mjpeg.

(** * Properties *)

(** ** Symbolic execution of the handlers *)

(** Unfold the handlers and the combinators, keeping arithmetic, string
    comparison and number printing folded. *)
Ltac media_eval :=
  cbv beta iota zeta delta
    [Media.handler Media.enabled Media.step Media.stopStream Media.ensureStream
     Media.ensureMedia Media.wsErrorHandler Media.wsForceClose
     Media.wsCloseHandler Media.closeDecoder Media.closeFrame Media.renderFrame
     Media.drawPendingFrame Media.display_size Media.drawImage Media.ping
     Media.ws_send Media.wsOpenHandler Media.setupCodec Media.wsJsonHandler
     Media.ensureDecoder Media.processFrame Media.wsBinHandler Media.byte_is
     Media.byte_truthy Media.onmessage
     bind ret gets modify call throw when try_finally try_catch is_null
     outcome final calls negb andb orb app
     Media.set_stop Media.set_ensuring Media.set_ws Media.set_ping_timer
     Media.set_missed_heartbeats Media.set_codec Media.set_decoder
     Media.set_frame Media.set_canvas Media.set_state Media.set_fps_accum
     Media.stop Media.ensuring Media.ws Media.ping_timer
     Media.missed_heartbeats Media.codec Media.decoder Media.frame
     Media.canvas Media.state Media.fps_accum].

(** Case analysis on an innermost test the evaluation is stuck on. *)
Ltac split_inner :=
  match goal with
  | |- context [match ?x with _ => _ end] =>
      lazymatch x with
      | context [match _ with _ => _ end] => fail
      | _ => destruct x eqn:?
      end
  end.

Ltac media_cases := media_eval; repeat (split_inner; media_eval).

(** Closes the two implications of the invariant after a case analysis. *)
Ltac inv_done :=
  split; intros; try congruence; try tauto;
  repeat match goal with
         | H : context [match ?x with _ => _ end] |- _ =>
             destruct x; try discriminate
         end;
  try congruence; try tauto.

(** Comparisons on [Z] read back as equations. *)
Ltac z_tests :=
  repeat match goal with
         | H : (_ =? _) = true |- _ => apply Z.eqb_eq in H
         | H : (_ =? _) = false |- _ => apply Z.eqb_neq in H
         end.

(** The same evaluation for the MJPEG handlers. *)
Ltac mjpeg_eval :=
  cbv beta iota zeta delta
    [Mjpeg.id_in_clients_stat Mjpeg.setStreamActive Mjpeg.setStreamInactive
     Mjpeg.ensureChecking Mjpeg.stopChecking Mjpeg.findId Mjpeg.ensureStream
     Mjpeg.stopStream Mjpeg.checkStream
     bind ret gets modify call throw when try_finally try_catch is_null
     outcome final calls negb andb orb app
     Mjpeg.set_key Mjpeg.set_id Mjpeg.set_fps Mjpeg.set_state Mjpeg.set_timer
     Mjpeg.set_timer_retries Mjpeg.set_image_src
     Mjpeg.key Mjpeg.id Mjpeg.fps Mjpeg.state Mjpeg.timer Mjpeg.timer_retries
     Mjpeg.image_src].

Ltac mjpeg_cases := mjpeg_eval; repeat (split_inner; mjpeg_eval).

(** ** Direct H.264 streamer: the invariant of its histories *)

Lemma inv_init (c : Media.Canvas) : Media.inv (Media.init c).
Proof. split; cbn; congruence. Qed.

Lemma handler_inv (pf : Media.Platform) (ans : Media.Answers) (ev : Media.Event)
    (s : Media.State) :
  Media.enabled ev s = true ->
  Media.inv s ->
  Media.inv (final (Media.handler pf ans ev s)).
Proof.
  destruct s as [st en w t m c d f cv sn acc].
  unfold Media.inv.
  cbn [Media.ws Media.ping_timer Media.decoder Media.frame].
  intros He [H1 H2].
  destruct ev; cbn in He; media_cases; inv_done.
Qed.

Lemma step_inv (pf : Media.Platform) (ans : Media.Answers) (ev : Media.Event)
    (s : Media.State) :
  Media.inv s -> Media.inv (Media.step pf ans ev s).
Proof.
  intros Hi. unfold Media.step.
  destruct (Media.enabled ev s) eqn:He; [now apply handler_inv | exact Hi].
Qed.

Lemma reachable_inv (pf : Media.Platform) (s : Media.State) :
  Media.reachable pf s -> Media.inv s.
Proof.
  induction 1 as [c | ans ev s _ IH].
  - apply inv_init.
  - now apply step_inv.
Qed.

Lemma run_reachable (pf : Media.Platform)
    (history : list (Media.Answers * Media.Event)) (s : Media.State) :
  Media.reachable pf s -> Media.reachable pf (Media.run pf history s).
Proof.
  revert s. induction history as [|[ans ev] rest IH]; intros s Hr.
  - exact Hr.
  - cbn. apply IH. now constructor.
Qed.

(** ** Direct H.264 streamer: heartbeat *)

Lemma pong_resets (pf : Media.Platform) (ans : Media.Answers) (data : list byte)
    (s : Media.State) :
  Media.onmessage pf ans (Media.BinaryMessage (xff :: data)) s
  = mkRun (Normal tt) (Media.set_missed_heartbeats 0 s) [].
Proof. destruct data; reflexivity. Qed.

Lemma ping_below_threshold (pf : Media.Platform) (ans : Media.Answers)
    (s : Media.State) :
  Media.ws s <> None ->
  Media.missed_heartbeats s + 1 < 5 ->
  let r := Media.ping pf ans s in
  outcome r = Normal tt
  /\ Media.missed_heartbeats (final r) = Media.missed_heartbeats s + 1
  /\ Media.ws (final r) = Media.ws s
  /\ Media.ping_timer (final r) = Media.ping_timer s
  /\ In Media.WsSendProbe (calls r)
  /\ List.filter Media.is_reconnect (calls r) = [].
Proof.
  destruct s as [st en w t m c d f cv sn acc]; cbn.
  intros Hw Hm.
  destruct w as [w0|]; [|congruence].
  media_eval.
  destruct (Z.leb_spec 5 (m + 1)); [lia|].
  media_cases; cbn; auto 10.
Qed.

Lemma ping_at_threshold (pf : Media.Platform) (ans : Media.Answers)
    (s : Media.State) :
  Media.closes_return ans ->
  5 <= Media.missed_heartbeats s + 1 ->
  let r := Media.ping pf ans s in
  outcome r = Normal tt
  /\ Media.missed_heartbeats (final r) = 0
  /\ Media.ws (final r) = None
  /\ Media.ping_timer (final r) = None
  /\ Media.decoder (final r) = None
  /\ (Media.ws s <> None -> In Media.WsClose (calls r))
  /\ List.filter Media.is_reconnect (calls r)
     = (if Media.stop s then [] else [Media.SetTimeoutEnsureMedia 1000]).
Proof.
  destruct s as [st en w t m c d f cv sn acc]; cbn.
  intros [Hd Hf] Hm.
  media_eval. rewrite Hd, Hf.
  destruct (Z.leb_spec 5 (m + 1)); [|lia].
  media_cases; cbn; repeat split; intros; auto 10; congruence.
Qed.



(** C1 on the code.  A session is connected, has negotiated H.264 and
    decoded a keyframe; its decoder then fails, which closes it, and four
    heartbeat ticks pass without a pong.  [close()] raises on a decoder that
    is closed already.  The fifth tick brings the counter to 5 and closes
    the socket, but the exception of [decoder.close()] leaves
    [__wsCloseHandler] before [__ws] is cleared and before the reconnection
    is scheduled: the tick ends by that exception, schedules nothing and
    keeps the closed socket in [__ws], so that neither [ensureStream] nor a
    reconnection timeout opens a socket afterwards.  Where the message
    handler meets the same exception, on a keyframe in the same state, its
    [catch] runs the error handler with the decoder already dropped, and the
    reconnection is scheduled. *)
Theorem heartbeat_stuck_on_closed_decoder :
  let pf := Media.chromium 0 in
  let s := Media.failed_four_state pf in
  let r := Media.ping pf Media.close_fails s in
  let m := Media.onmessage pf Media.close_fails Media.keyframe s in
  Media.reachable pf s
  /\ Media.enabled Media.PingTick s = true
  /\ Media.stop s = false
  /\ Media.missed_heartbeats s = 4
  /\ Media.decoder s = Some Media.Closed
  /\ outcome r = Throw "InvalidStateError"
  /\ In Media.WsClose (calls r)
  /\ List.filter Media.is_reconnect (calls r) = []
  /\ Media.ws (final r) = Some (Media.mkWs false true)
  /\ Media.missed_heartbeats (final r) = 5
  /\ List.filter Media.is_new_socket (calls (Media.ensureStream None (final r))) = []
  /\ List.filter Media.is_new_socket (calls (Media.ensureMedia true (final r))) = []
  /\ outcome m = Normal tt
  /\ Media.ws (final m) = None
  /\ List.filter Media.is_reconnect (calls m) = [Media.SetTimeoutEnsureMedia 1000].
Proof.
  cbv zeta. split; [apply run_reachable; constructor|].
  vm_compute. repeat split; auto.
Qed.

(** What [closes_return] keeps out: when [decoder.close()] throws, here on a
    decoder that failed before, the exception leaves [stopStream] through
    the [finally] blocks before [__ws] is cleared. *)
Example close_exception_escapes :
  outcome (Media.stopStream (Media.chromium 0) Media.close_fails
             (Media.decoder_failed_state (Media.chromium 0)))
  = Throw "InvalidStateError"
  /\ Media.ws (final (Media.stopStream (Media.chromium 0) Media.close_fails
                        (Media.decoder_failed_state (Media.chromium 0))))
     = Some (Media.mkWs false true)
  /\ Media.frame (final (Media.stopStream (Media.chromium 0) Media.close_fails
                           (Media.decoder_failed_state (Media.chromium 0))))
     = None.
Proof. vm_compute. auto. Qed.

(** ** Direct H.264 streamer: the single frame slot and its release *)

Lemma renderFrame_empty_slot (pf : Media.Platform) (ans : Media.Answers)
    (f : Media.VideoFrame) (s : Media.State) :
  Media.frame s = None ->
  Media.renderFrame pf ans f s
  = mkRun (Normal tt) (Media.set_frame (Some f) s) [Media.RequestAnimationFrame].
Proof. destruct s; cbn. intros ->. reflexivity. Qed.

Lemma renderFrame_full_slot (pf : Media.Platform) (ans : Media.Answers)
    (f f0 : Media.VideoFrame) (s : Media.State) :
  Media.frame s = Some f0 ->
  let r := Media.renderFrame pf ans f s in
  final r = s
  /\ calls r = (if Media.is_firefox pf then [] else [Media.FrameClose f]).
Proof.
  destruct s; cbn. intros ->. media_cases; auto.
Qed.

Lemma drawPendingFrame_release (pf : Media.Platform) (ans : Media.Answers)
    (f : Media.VideoFrame) (s : Media.State) :
  Media.frame s = Some f ->
  let r := Media.drawPendingFrame pf ans s in
  List.filter Media.is_frame_close (calls r)
  = (if Media.is_firefox pf then [] else [Media.FrameClose f])
  /\ (Media.frame_close_throws ans = false -> Media.frame (final r) = None).
Proof.
  destruct s as [st en w t m c d fr cv sn acc]; cbn. intros ->.
  media_cases; cbn; split; intros; congruence.
Qed.

Lemma closeDecoder_release (pf : Media.Platform) (ans : Media.Answers)
    (f : Media.VideoFrame) (s : Media.State) :
  Media.decoder s <> None ->
  Media.frame s = Some f ->
  let r := Media.closeDecoder pf ans s in
  List.filter Media.is_frame_close (calls r)
  = (if Media.is_firefox pf then [] else [Media.FrameClose f])
  /\ Media.frame (final r) = None
  /\ Media.decoder (final r) = None.
Proof.
  destruct s as [st en w t m c d fr cv sn acc]; cbn. intros Hd ->.
  destruct d; [|congruence].
  media_cases; cbn; auto.
Qed.

(** C2, as the code has it.  With the slot empty, the first of two decoded
    frames is buffered (and one display refresh requested) and the second
    is handed to [__closeFrame] while the first stays; [frame.close()] is
    called on the second at once, except on Firefox, where [__closeFrame]
    leaves the frame to the browser.  A frame that arrives after the render
    callback ran finds the slot empty and is buffered. *)
Theorem backpressure_keeps_first (pf : Media.Platform)
    (ans1 ans2 ans3 : Media.Answers) (s : Media.State)
    (f1 f2 : Media.VideoFrame) :
  Media.frame s = None ->
  Media.frame (final (Media.renderFrame pf ans1 f1 s)) = Some f1
  /\ calls (Media.renderFrame pf ans1 f1 s) = [Media.RequestAnimationFrame]
  /\ Media.frame
       (final (Media.renderFrame pf ans2 f2 (final (Media.renderFrame pf ans1 f1 s))))
     = Some f1
  /\ calls (Media.renderFrame pf ans2 f2 (final (Media.renderFrame pf ans1 f1 s)))
     = (if Media.is_firefox pf then [] else [Media.FrameClose f2])
  /\ (Media.frame_close_throws ans3 = false ->
      Media.frame
        (final (Media.renderFrame pf ans2 f2
                  (final (Media.drawPendingFrame pf ans3
                            (final (Media.renderFrame pf ans1 f1 s))))))
      = Some f2).
Proof.
  intros Hs.
  rewrite (renderFrame_empty_slot pf ans1 f1 s Hs). cbn [final calls].
  assert (Hf : Media.frame (Media.set_frame (Some f1) s) = Some f1) by reflexivity.
  destruct (renderFrame_full_slot pf ans2 f2 f1 _ Hf) as [-> ->].
  repeat split; auto.
  intros H3.
  destruct (drawPendingFrame_release pf ans3 f1 _ Hf) as [_ Hd].
  rewrite (renderFrame_empty_slot pf ans2 f2 _ (Hd H3)). reflexivity.
Qed.

Lemma backpressure_keeps_first_witness :
  Media.frame (Media.decoding_state (Media.chromium 0)) = None
  /\ calls (Media.renderFrame (Media.chromium 0) Media.quiet (Media.sample_frame 2)
             (final (Media.renderFrame (Media.chromium 0) Media.quiet
                       (Media.sample_frame 1)
                       (Media.decoding_state (Media.chromium 0)))))
     = [Media.FrameClose (Media.sample_frame 2)].
Proof.
  split; [reflexivity|].
  exact (proj1 (proj2 (proj2 (proj2
           (backpressure_keeps_first (Media.chromium 0) Media.quiet Media.quiet
              Media.quiet (Media.decoding_state (Media.chromium 0))
              (Media.sample_frame 1) (Media.sample_frame 2) eq_refl))))).
Defined.

(** C2 as stated fails on Firefox: with the slot empty, the second of two
    decoded frames is dropped without [frame.close()], so its resources are
    not released at once. *)
Lemma backpressure_firefox_no_release :
  Media.frame (Media.decoding_state (Media.firefox 0)) = None
  /\ Media.frame
       (final (Media.renderFrame (Media.firefox 0) Media.quiet (Media.sample_frame 2)
                 (final (Media.renderFrame (Media.firefox 0) Media.quiet
                           (Media.sample_frame 1)
                           (Media.decoding_state (Media.firefox 0))))))
     = Some (Media.sample_frame 1)
  /\ ~ In (Media.FrameClose (Media.sample_frame 2))
         (calls (Media.renderFrame (Media.firefox 0) Media.quiet (Media.sample_frame 2)
                   (final (Media.renderFrame (Media.firefox 0) Media.quiet
                             (Media.sample_frame 1)
                             (Media.decoding_state (Media.firefox 0)))))).
Proof. vm_compute. repeat split. intros []. Qed.

(** C6, as the code has it.  In any state a history can reach, a frame
    given to the render path is passed to [__closeFrame] on every exit path:
    after drawing, whether or not drawing throws; at once when the slot is
    occupied; and during decoder teardown, which also clears the slot,
    whether or not [decoder.close()] throws.  [__closeFrame] calls
    [frame.close()] exactly once, except on Firefox, where it calls
    nothing. *)
Theorem frame_released_on_every_path (pf : Media.Platform) (ans : Media.Answers)
    (s : Media.State) (f f' : Media.VideoFrame) :
  Media.reachable pf s ->
  Media.frame s = Some f ->
  List.filter Media.is_frame_close (calls (Media.drawPendingFrame pf ans s))
  = (if Media.is_firefox pf then [] else [Media.FrameClose f])
  /\ (Media.frame_close_throws ans = false ->
      Media.frame (final (Media.drawPendingFrame pf ans s)) = None)
  /\ calls (Media.renderFrame pf ans f' s)
     = (if Media.is_firefox pf then [] else [Media.FrameClose f'])
  /\ List.filter Media.is_frame_close (calls (Media.closeDecoder pf ans s))
     = (if Media.is_firefox pf then [] else [Media.FrameClose f])
  /\ Media.frame (final (Media.closeDecoder pf ans s)) = None.
Proof.
  intros Hr Hf.
  assert (Hd : Media.decoder s <> None).
  { destruct (reachable_inv pf s Hr) as [_ H2]. apply H2. congruence. }
  destruct (drawPendingFrame_release pf ans f s Hf) as [H1 H2].
  destruct (renderFrame_full_slot pf ans f' f s Hf) as [_ H3].
  destruct (closeDecoder_release pf ans f s Hd Hf) as (H4 & H5 & _).
  auto.
Qed.

Lemma frame_released_on_every_path_witness :
  Media.reachable (Media.chromium 90)
    (Media.streaming_state (Media.chromium 90))
  /\ Media.frame (Media.streaming_state (Media.chromium 90)) = Some (Media.sample_frame 0)
  /\ List.filter Media.is_frame_close
       (calls (Media.drawPendingFrame (Media.chromium 90) Media.draw_fails
                 (Media.streaming_state (Media.chromium 90))))
     = [Media.FrameClose (Media.sample_frame 0)].
Proof.
  assert (Hr : Media.reachable (Media.chromium 90)
                 (Media.streaming_state (Media.chromium 90)))
    by (apply run_reachable; constructor).
  split; [exact Hr|]. split; [reflexivity|].
  exact (proj1 (frame_released_on_every_path (Media.chromium 90) Media.draw_fails
                  _ (Media.sample_frame 0) (Media.sample_frame 1) Hr eq_refl)).
Defined.

(** C6 as stated fails on Firefox: a pending frame is drawn and dropped
    from the slot without any [frame.close()]. *)
Lemma firefox_draw_no_release :
  Media.frame (Media.streaming_state (Media.firefox 0)) = Some (Media.sample_frame 0)
  /\ Media.frame
       (final (Media.drawPendingFrame (Media.firefox 0) Media.quiet
                 (Media.streaming_state (Media.firefox 0)))) = None
  /\ ~ In (Media.FrameClose (Media.sample_frame 0))
         (calls (Media.drawPendingFrame (Media.firefox 0) Media.quiet
                   (Media.streaming_state (Media.firefox 0)))).
Proof.
  vm_compute. split; [reflexivity|]. split; [reflexivity|].
  intros H. repeat (destruct H as [H|H]; [discriminate H|]). exact H.
Qed.

(** ** Direct H.264 streamer: orientation *)

Lemma drawPendingFrame_canvas (pf : Media.Platform) (ans : Media.Answers)
    (s : Media.State) (f : Media.VideoFrame) :
  Media.frame s = Some f ->
  Media.canvas (final (Media.drawPendingFrame pf ans s))
  = Media.mkCanvas (fst (Media.display_size pf f)) (snd (Media.display_size pf f))
  /\ (In Media.OrganizeHook (calls (Media.drawPendingFrame pf ans s)) <->
      Media.canvas s
      <> Media.mkCanvas (fst (Media.display_size pf f)) (snd (Media.display_size pf f))).
Proof.
  destruct s as [st en w t m c d fr [cw ch] sn acc]. cbn. intros ->.
  unfold Media.drawPendingFrame.
  destruct (Media.display_size pf f) as [dw dh]. cbn [fst snd].
  media_cases; z_tests; cbn in *; subst;
    (split; [try reflexivity; congruence|]);
    (split;
     [ first [ (intros _ Heq; injection Heq; congruence)
             | (intros Hin; cbn in Hin; intuition discriminate) ]
     | first [ (intros _; cbn; tauto)
             | (intros Hne; congruence) ] ]).
Qed.

(** C9.  When a pending frame is drawn with orientation 0 or 180 the canvas
    ends up with the frame's display width and height, with orientation 90
    or 270 with the two swapped; the canvas is resized and the layout hook
    called exactly when that size differs from the current one, whether or
    not drawing throws. *)
Theorem orientation_surface_size (pf : Media.Platform) (ans : Media.Answers)
    (s : Media.State) (f : Media.VideoFrame) :
  Media.frame s = Some f ->
  ((Media.orient pf = 0 \/ Media.orient pf = 180) ->
   Media.canvas (final (Media.drawPendingFrame pf ans s))
   = Media.mkCanvas (Media.displayWidth f) (Media.displayHeight f))
  /\ ((Media.orient pf = 90 \/ Media.orient pf = 270) ->
      Media.canvas (final (Media.drawPendingFrame pf ans s))
      = Media.mkCanvas (Media.displayHeight f) (Media.displayWidth f))
  /\ (In Media.OrganizeHook (calls (Media.drawPendingFrame pf ans s)) <->
      Media.canvas s <> Media.canvas (final (Media.drawPendingFrame pf ans s))).
Proof.
  intros Hf.
  destruct (drawPendingFrame_canvas pf ans s f Hf) as [Hc Hh].
  rewrite Hc. split; [|split; [|exact Hh]].
  - intros [H|H]; unfold Media.display_size; rewrite H; reflexivity.
  - intros [H|H]; unfold Media.display_size; rewrite H; reflexivity.
Qed.

Lemma orientation_surface_size_witness :
  Media.frame (Media.streaming_state (Media.chromium 90))
  = Some (Media.sample_frame 0)
  /\ Media.canvas
       (final (Media.drawPendingFrame (Media.chromium 90) Media.quiet
                 (Media.streaming_state (Media.chromium 90))))
     = Media.mkCanvas 1080 1920.
Proof.
  split; [reflexivity|].
  destruct (orientation_surface_size (Media.chromium 90) Media.quiet
              (Media.streaming_state (Media.chromium 90))
              (Media.sample_frame 0) eq_refl) as (_ & H & _).
  apply H. left. reflexivity.
Defined.

(** ** Direct H.264 streamer: decoder teardown and the codec identifier *)










(** ** Direct H.264 streamer: connection attempts *)

Lemma ensureMedia_opens (internal : bool) (s : Media.State) :
  In Media.NewWebSocket (calls (Media.ensureMedia internal s)) <->
  Media.ws s = None /\ Media.stop s = false
  /\ (Media.ensuring s = false \/ internal = true).
Proof.
  destruct s as [st en w t m c d fr cv sn acc]; cbn.
  destruct w, st, en, internal; cbn; intuition (auto; discriminate).
Qed.

Lemma ensureStream_opens (sn : option Snapshot) (s : Media.State) :
  (In Media.NewWebSocket (calls (Media.ensureStream sn s)) <->
   Media.ws s = None /\ Media.ensuring s = false)
  /\ List.filter Media.is_new_socket (calls (Media.ensureStream sn s))
     = (if is_null (Media.ws s) && negb (Media.ensuring s)
        then [Media.NewWebSocket] else [])
  /\ (Media.ws (final (Media.ensureStream sn s)) = None ->
      Media.ws s = None /\ Media.ensuring s = true)
  /\ (Media.ensuring s = true ->
      Media.ensuring (final (Media.ensureStream sn s)) = true)
  /\ (Media.ws s <> None \/ Media.ensuring s = true ->
      Media.ws (final (Media.ensureStream sn s)) <> None
      \/ Media.ensuring (final (Media.ensureStream sn s)) = true).
Proof.
  destruct s as [st en w t m c d fr cv sn0 acc]; cbn.
  destruct w, en; cbn; intuition (auto; discriminate).
Qed.

Lemma ensureStream_repeatedly_quiet (sns : list (option Snapshot))
    (s : Media.State) :
  Media.ws s <> None \/ Media.ensuring s = true ->
  List.filter Media.is_new_socket (Media.ensureStream_repeatedly sns s) = [].
Proof.
  revert s. induction sns as [|sn rest IH]; intros s Hs; [reflexivity|].
  cbn [Media.ensureStream_repeatedly]. rewrite List.filter_app.
  destruct (ensureStream_opens sn s) as (_ & Hf & _ & _ & Hk).
  rewrite Hf, (IH _ (Hk Hs)).
  destruct Hs as [Hw | He].
  - destruct (Media.ws s); [reflexivity | congruence].
  - rewrite He. destruct (Media.ws s); reflexivity.
Qed.

(** C8.  [__ensureMedia(false)] opens a socket exactly when none is held,
    the streamer is not stopped and no attempt is marked as in progress
    (the retry that the close handler schedules, [__ensureMedia(true)], is
    that attempt and only needs the first two).  [ensureStream] clears the
    stop flag itself, so it opens exactly when no socket is held and no
    attempt is marked.  A second call right after a first opens nothing,
    and any number of calls in a row open at most one socket. *)
Theorem ensureStream_no_duplicate_connection (s : Media.State)
    (sn sn' : option Snapshot) (sns : list (option Snapshot)) :
  (In Media.NewWebSocket (calls (Media.ensureMedia false s)) <->
   Media.ws s = None /\ Media.stop s = false /\ Media.ensuring s = false)
  /\ (In Media.NewWebSocket (calls (Media.ensureMedia true s)) <->
      Media.ws s = None /\ Media.stop s = false)
  /\ (In Media.NewWebSocket (calls (Media.ensureStream sn s)) <->
      Media.ws s = None /\ Media.ensuring s = false)
  /\ ~ In Media.NewWebSocket
         (calls (Media.ensureStream sn' (final (Media.ensureStream sn s))))
  /\ (length (List.filter Media.is_new_socket
                (Media.ensureStream_repeatedly sns s)) <= 1)%nat.
Proof.
  split; [|split; [|split; [|split]]].
  - rewrite ensureMedia_opens. intuition discriminate.
  - rewrite ensureMedia_opens. intuition discriminate.
  - apply ensureStream_opens.
  - destruct (ensureStream_opens sn' (final (Media.ensureStream sn s))) as (H1 & _).
    rewrite H1. intros [Hw He].
    destruct (ensureStream_opens sn s) as (_ & _ & Hn & Hk & _).
    destruct (Hn Hw) as [_ He0]. rewrite (Hk He0) in He. discriminate.
  - destruct sns as [|sn0 rest]; [cbn; lia|].
    cbn [Media.ensureStream_repeatedly]. rewrite List.filter_app, List.length_app.
    destruct (ensureStream_opens sn0 s) as (_ & Hf & Hn & Hk & Hq).
    rewrite Hf.
    destruct (Media.ws s) eqn:Hw; cbn [is_null andb].
    + rewrite ensureStream_repeatedly_quiet; [cbn; lia|].
      apply Hq. left. congruence.
    + destruct (Media.ensuring s) eqn:He; cbn [negb].
      * rewrite ensureStream_repeatedly_quiet; [cbn; lia|].
        apply Hq. now right.
      * rewrite ensureStream_repeatedly_quiet; [cbn; lia|].
        left. intros Hnone. destruct (Hn Hnone) as [_ Habs]. congruence.
Qed.

(** ** HTTP MJPEG streamer *)



(** The test on the misspelt property never holds; the test on [length]
    holds exactly for a non-empty id. *)
Lemma legnth_test (i : string) :
  Mjpeg.js_gt (Mjpeg.string_prop i "legnth") 0 = false.
Proof. reflexivity. Qed.

Lemma length_test (i : string) :
  Mjpeg.js_gt (Mjpeg.string_prop i "length") 0 = negb (String.eqb i "").
Proof. destruct i; reflexivity. Qed.

Lemma findId_run (ans : Mjpeg.Answers) (s : Mjpeg.State) :
  Mjpeg.findId ans s = mkRun (Normal tt) (final (Mjpeg.findId ans s)) [].
Proof.
  destruct s as [k i f sn t n src]. mjpeg_cases; reflexivity.
Qed.

Lemma findId_resolved (ans : Mjpeg.Answers) (s : Mjpeg.State) :
  Mjpeg.id s <> "" -> final (Mjpeg.findId ans s) = s.
Proof.
  destruct s as [k i f sn t n src]. cbn. intros Hi.
  destruct i as [|a i]; [congruence|].
  mjpeg_eval. destruct (Mjpeg.cookie ans); reflexivity.
Qed.

Lemma findId_frame (ans : Mjpeg.Answers) (s : Mjpeg.State) :
  final (Mjpeg.findId ans s) = Mjpeg.set_id (Mjpeg.id (final (Mjpeg.findId ans s))) s.
Proof.
  destruct s as [k i f sn t n src]. mjpeg_cases; reflexivity.
Qed.

Lemma checkStream_unresolved (pf : Mjpeg.Platform) (ans : Mjpeg.Answers)
    (s : Mjpeg.State) :
  Mjpeg.id (final (Mjpeg.findId ans s)) = "" ->
  Mjpeg.checkStream pf ans s = Mjpeg.failure_path pf ans s.
Proof.
  intros Hi. unfold Mjpeg.checkStream, bind at 1.
  rewrite findId_run, findId_frame, Hi.
  destruct s as [k i f sn t n src]. unfold Mjpeg.failure_path.
  mjpeg_eval. rewrite legnth_test, length_test.
  change (negb (String.eqb "" "")) with false.
  mjpeg_cases; reflexivity.
Qed.

Lemma checkStream_waits (pf : Mjpeg.Platform) (ans : Mjpeg.Answers)
    (s : Mjpeg.State) :
  Mjpeg.id s <> "" ->
  0 <= Mjpeg.timer_retries s ->
  Mjpeg.checkStream pf ans s
  = mkRun (Normal tt) (Mjpeg.set_timer_retries (Mjpeg.timer_retries s - 1) s) [].
Proof.
  intros Hi Hn. unfold Mjpeg.checkStream, bind at 1.
  rewrite findId_run, (findId_resolved ans s Hi).
  destruct s as [k i f sn t n src]. cbn in Hi, Hn.
  mjpeg_eval. rewrite legnth_test, length_test.
  destruct i as [|a i]; [congruence|].
  change (negb (String.eqb (String a i) "")) with true.
  destruct (Z.leb_spec 0 n); [reflexivity | lia].
Qed.


Lemma prefix_append (p s : string) : String.prefix p (p ++ s) = true.
Proof.
  induction p as [|a p IH]; simpl.
  - now destruct s.
  - destruct (Ascii.ascii_dec a a); [exact IH | congruence].
Qed.

Lemma prefix_refl (p : string) : String.prefix p p = true.
Proof.
  induction p as [|a p IH]; simpl; [reflexivity|].
  destruct (Ascii.ascii_dec a a); [exact IH | congruence].
Qed.

(** The URL requested for key [k] starts with the stream resource and the
    encoded key. *)
Lemma stream_path_key (pf : Mjpeg.Platform) (k : string) :
  String.prefix
    (Mjpeg.ROOT_PREFIX pf ++ "streamer/stream?key=" ++ Mjpeg.encodeURIComponent pf k)
    (Mjpeg.stream_path pf k) = true.
Proof.
  unfold Mjpeg.stream_path.
  destruct (Mjpeg.is_safari pf || Mjpeg.is_ios pf);
    [apply prefix_append|].
  destruct (Mjpeg.is_chrome pf || Mjpeg.is_blink pf);
    [apply prefix_append | apply prefix_refl].
Qed.

Lemma ticks_stopped (pf : Mjpeg.Platform) (answers : list Mjpeg.Answers)
    (s : Mjpeg.State) :
  Mjpeg.timer s = None -> Mjpeg.ticks pf answers s = (s, []).
Proof. intros Ht. destruct answers; cbn; [|rewrite Ht]; reflexivity. Qed.



(** What the [in] test and the read of [fps] give for an own key, for an
    inherited name and for a name that is not found. *)
Lemma js_in_spec (i : string) (m : gmap string Z) :
  Mjpeg.js_in i m = match m !! i with
                    | Some _ => true
                    | None => Mjpeg.inherited i
                    end.
Proof.
  unfold Mjpeg.js_in. destruct (m !! i) as [f|].
  - rewrite bool_decide_eq_true_2 by eauto. reflexivity.
  - rewrite bool_decide_eq_false_2 by (intros [? ?]; discriminate). reflexivity.
Qed.

Lemma js_in_false (i : string) (m : gmap string Z) :
  Mjpeg.js_in i m = false -> Mjpeg.entry_fps i m = None.
Proof.
  rewrite js_in_spec. unfold Mjpeg.entry_fps.
  destruct (m !! i); [discriminate|]. now intros ->.
Qed.

Lemma js_in_true (i : string) (m : gmap string Z) :
  Mjpeg.js_in i m = true -> exists f, Mjpeg.entry_fps i m = Some f.
Proof.
  rewrite js_in_spec. unfold Mjpeg.entry_fps.
  destruct (m !! i) as [f|]; [eauto|]. intros ->. eauto.
Qed.





(** C10.  A poll tick that leaves the client id unresolved takes the failure
    path at once, whatever is left of the budget: the streamer goes
    inactive (telling its owner if it was active), the session key is
    replaced by a fresh one, the stream is requested again, at the stream
    resource's URL with that key encoded in it, and the timer is cleared.  A
    tick with a resolved id and a budget that is not negative only takes one
    from the budget. *)
Theorem unresolved_id_fails_at_once (pf : Mjpeg.Platform) (ans : Mjpeg.Answers)
    (s s' : Mjpeg.State) :
  Mjpeg.id (final (Mjpeg.findId ans s)) = "" ->
  Mjpeg.id s' <> "" ->
  0 <= Mjpeg.timer_retries s' ->
  Mjpeg.checkStream pf ans s
  = mkRun (Normal tt)
      (Mjpeg.mkState (Mjpeg.random_id ans) "" (Some (-1)) None None 0
         (Mjpeg.stream_path pf (Mjpeg.random_id ans)))
      ((if Mjpeg.js_ge (Mjpeg.fps s) 0
        then [Mjpeg.SetInactive; Mjpeg.SetInfo false false ""] else [])
       ++ match Mjpeg.timer s with
          | Some h => [Mjpeg.ClearInterval h]
          | None => []
          end
       ++ [Mjpeg.ImageSetSrc (Mjpeg.stream_path pf (Mjpeg.random_id ans))])%list
  /\ String.prefix
       (Mjpeg.ROOT_PREFIX pf ++ "streamer/stream?key="
        ++ Mjpeg.encodeURIComponent pf (Mjpeg.random_id ans))
       (Mjpeg.image_src (final (Mjpeg.checkStream pf ans s))) = true
  /\ (exists url,
        List.filter Mjpeg.is_image_src (calls (Mjpeg.checkStream pf ans s))
        = [Mjpeg.ImageSetSrc url]
        /\ String.prefix
             (Mjpeg.ROOT_PREFIX pf ++ "streamer/stream?key="
              ++ Mjpeg.encodeURIComponent pf (Mjpeg.random_id ans)) url = true)
  /\ Mjpeg.checkStream pf ans s'
     = mkRun (Normal tt)
         (Mjpeg.set_timer_retries (Mjpeg.timer_retries s' - 1) s') [].
Proof.
  intros Hi Hi' Hn.
  rewrite (checkStream_unresolved pf ans s Hi). unfold Mjpeg.failure_path.
  cbn [final calls Mjpeg.image_src].
  split; [reflexivity|]. split; [apply stream_path_key|]. split.
  - exists (Mjpeg.stream_path pf (Mjpeg.random_id ans)).
    split; [|apply stream_path_key].
    destruct (Mjpeg.js_ge (Mjpeg.fps s) 0); destruct (Mjpeg.timer s); reflexivity.
  - now apply checkStream_waits.
Qed.

Lemma unresolved_id_fails_at_once_witness :
  Mjpeg.id (final (Mjpeg.findId Mjpeg.no_cookie Mjpeg.polling)) = ""
  /\ Mjpeg.id (Mjpeg.set_id "42" Mjpeg.polling) <> ""
  /\ 0 <= Mjpeg.timer_retries (Mjpeg.set_id "42" Mjpeg.polling)
  /\ Mjpeg.timer (final (Mjpeg.checkStream Mjpeg.blink Mjpeg.no_cookie Mjpeg.polling))
     = None.
Proof.
  assert (Hi : Mjpeg.id (Mjpeg.set_id "42" Mjpeg.polling) <> "")
    by (cbn; discriminate).
  assert (Hn : 0 <= Mjpeg.timer_retries (Mjpeg.set_id "42" Mjpeg.polling))
    by (vm_compute; discriminate).
  split; [reflexivity|]. split; [exact Hi|]. split; [exact Hn|].
  destruct (unresolved_id_fails_at_once Mjpeg.blink Mjpeg.no_cookie Mjpeg.polling
              (Mjpeg.set_id "42" Mjpeg.polling) eq_refl Hi Hn) as [H _].
  rewrite H. reflexivity.
Defined.

Lemma checkStream_never_activates (pf : Mjpeg.Platform) (ans : Mjpeg.Answers)
    (s : Mjpeg.State) :
  ~ In Mjpeg.SetActive (calls (Mjpeg.checkStream pf ans s)).
Proof.
  unfold Mjpeg.checkStream, bind at 1. rewrite findId_run.
  destruct (final (Mjpeg.findId ans s)) as [k i f sn t n src].
  mjpeg_eval. rewrite legnth_test.
  mjpeg_cases; cbn; intuition discriminate.
Qed.

(** C4 on the code.  The streamer holds key ["K"] and polls; the cookie is
    ["K/42"] and the snapshot lists client ["42"].  The tick resolves the id
    to ["42"] but then only takes one from the budget: the timer keeps
    running, the streamer stays inactive and nothing is reported.  No poll
    tick ever reports activity.  [ensureStream], on the same input, does go
    active and stops the timer. *)
Theorem poll_tick_misses_listed_client :
  Mjpeg.key Mjpeg.polling = "K"
  /\ Mjpeg.cookie Mjpeg.cookie_42 = Some "K/42"
  /\ Mjpeg.js_in "42" (clients_stat Mjpeg.lists_42) = true
  /\ Mjpeg.state Mjpeg.polling = Some Mjpeg.lists_42
  /\ Mjpeg.checkStream Mjpeg.blink Mjpeg.cookie_42 Mjpeg.polling
     = mkRun (Normal tt)
         (Mjpeg.mkState "K" "42" (Some (-1)) (Some Mjpeg.lists_42)
            (Some 3%positive) 9 "")
         []
  /\ (forall pf ans s, ~ In Mjpeg.SetActive (calls (Mjpeg.checkStream pf ans s)))
  /\ Mjpeg.ensureStream Mjpeg.cookie_42 (Some Mjpeg.lists_42) Mjpeg.polling
     = mkRun (Normal tt)
         (Mjpeg.mkState "K" "42" (Some 25) (Some Mjpeg.lists_42) None 0 "")
         [Mjpeg.SetActive; Mjpeg.SetInfo true true "25 fps dynamic";
          Mjpeg.ClearInterval 3%positive; Mjpeg.OrganizeHook].
Proof.
  repeat split; try reflexivity.
  intros pf ans s. apply checkStream_never_activates.
Qed.

(** ** [stopStream] on both streamers *)



(** C7 on the code.  A session is connected, has negotiated H.264, decoded
    a keyframe and holds a decoded frame; its decoder then fails, which
    closes it.  [close()] raises on a decoder that is closed already.
    [stopStream] closes the socket and clears the decoder and the frame, but
    the exception of [decoder.close()] leaves [__wsCloseHandler] before
    [__ws] is cleared: the call ends by that exception and keeps the closed
    socket in [__ws].  A second call finds no decoder, returns normally and
    clears [__ws], so it ends in another state than the first; and an
    [ensureStream] after the first call opens no socket. *)
Theorem stopStream_keeps_socket_on_closed_decoder :
  let pf := Media.chromium 0 in
  let s := Media.decoder_failed_state pf in
  let once := Media.stopStream pf Media.close_fails s in
  let twice := Media.stopStream pf Media.close_fails (final once) in
  Media.reachable pf s
  /\ Media.decoder s = Some Media.Closed
  /\ outcome once = Throw "InvalidStateError"
  /\ Media.ws (final once) = Some (Media.mkWs false true)
  /\ Media.decoder (final once) = None
  /\ Media.frame (final once) = None
  /\ Media.ping_timer (final once) = None
  /\ outcome twice = Normal tt
  /\ Media.ws (final twice) = None
  /\ final twice <> final once
  /\ List.filter Media.is_new_socket (calls (Media.ensureStream None (final once)))
     = [].
Proof.
  cbv zeta. split; [apply run_reachable; constructor|].
  vm_compute. repeat split; auto. discriminate.
Qed.



(** ** Direct H.264 streamer: bounds kept by every history *)

Ltac tests_to_props :=
  repeat match goal with
         | H : (_ <=? _) = true |- _ => apply Z.leb_le in H
         | H : (_ <=? _) = false |- _ => apply Z.leb_gt in H
         | H : String.eqb _ _ = false |- _ => apply String.eqb_neq in H
         | H : String.eqb _ _ = true |- _ => apply String.eqb_eq in H
         end.

Ltac use_open_socket :=
  match goal with
  | B : forall w, _ = Some w -> _, H : _ = Some ?w,
    H' : Media.close_called ?w = false |- _ =>
      destruct (B w H H'); congruence || tauto
  end.

Ltac bounds_done :=
  tests_to_props;
  repeat match goal with
         | |- _ /\ _ => split
         | |- forall _, _ => intro
         end;
  try lia; try congruence; try tauto;
  try (match goal with
       | H : Some _ = Some _ |- _ => injection H as H; subst; cbn in *; discriminate
       end);
  try use_open_socket.

Lemma try_catch_final {S E A : Type} (b : Js.M S E A) (h : string -> Js.M S E A)
    (s : S) :
  final (try_catch b h s)
  = match outcome (b s) with
    | Normal _ => final (b s)
    | Throw ex => final (h ex (final (b s)))
    end.
Proof.
  unfold try_catch. destruct (b s) as [[a|ex] s1 c1]; cbn; [reflexivity|].
  now destruct (h ex s1).
Qed.

Lemma wsErrorHandler_bounds (pf : Media.Platform) (ans : Media.Answers)
    (e : string) (s : Media.State) :
  0 <= Media.missed_heartbeats s <= 5 ->
  0 <= Media.fps_accum s ->
  Media.bounds (final (Media.wsErrorHandler pf ans e s)).
Proof.
  destruct s as [st en w t m c d f cv sn acc].
  unfold Media.bounds.
  cbn [Media.stop Media.ensuring Media.ws Media.ping_timer Media.missed_heartbeats
       Media.codec Media.decoder Media.frame Media.fps_accum].
  intros B1 B3.
  media_cases; bounds_done.
Qed.

Lemma message_body_fields (pf : Media.Platform) (ans : Media.Answers)
    (msg : Media.Message) (s : Media.State) :
  let r := match msg with
           | Media.TextMessage ev_type video => Media.wsJsonHandler pf ans ev_type video s
           | Media.BinaryMessage data => Media.wsBinHandler pf ans data s
           end in
  Media.stop (final r) = Media.stop s
  /\ Media.ensuring (final r) = Media.ensuring s
  /\ Media.ws (final r) = Media.ws s
  /\ Media.ping_timer (final r) = Media.ping_timer s
  /\ Media.fps_accum (final r) = Media.fps_accum s
  /\ (Media.missed_heartbeats (final r) = Media.missed_heartbeats s
      \/ Media.missed_heartbeats (final r) = 0)
  /\ ((Media.decoder s <> None -> Media.codec s <> "") ->
      Media.decoder (final r) <> None -> Media.codec (final r) <> "").
Proof.
  destruct s as [st en w t m c d f cv sn acc].
  destruct msg; cbn zeta;
    cbn [Media.stop Media.ensuring Media.ws Media.ping_timer Media.missed_heartbeats
       Media.codec Media.decoder Media.frame Media.fps_accum].
  - media_cases; tests_to_props;
      repeat split; intros; auto; try congruence; try discriminate.
  - media_cases; tests_to_props;
      repeat split; intros; auto; try congruence; try discriminate.
Qed.

Lemma drawPendingFrame_fields (pf : Media.Platform) (ans : Media.Answers)
    (s : Media.State) :
  let r := Media.drawPendingFrame pf ans s in
  Media.stop (final r) = Media.stop s
  /\ Media.ensuring (final r) = Media.ensuring s
  /\ Media.ws (final r) = Media.ws s
  /\ Media.ping_timer (final r) = Media.ping_timer s
  /\ Media.missed_heartbeats (final r) = Media.missed_heartbeats s
  /\ Media.codec (final r) = Media.codec s
  /\ Media.decoder (final r) = Media.decoder s
  /\ (Media.fps_accum (final r) = Media.fps_accum s
      \/ Media.fps_accum (final r) = Media.fps_accum s + 1).
Proof.
  destruct s as [st en w t m c d fr cv sn acc]. cbn zeta.
  unfold Media.drawPendingFrame.
  destruct fr as [f|]; [|cbn; auto 10].
  destruct (Media.display_size pf f) as [dw dh].
  media_cases; auto 10.
Qed.

Ltac open_state s :=
  destruct s as [st en w t m c d fr cv snap acc];
  unfold Media.inv, Media.bounds in *;
  cbn [Media.stop Media.ensuring Media.ws Media.ping_timer
       Media.missed_heartbeats Media.codec Media.decoder Media.frame
       Media.fps_accum] in *.

Lemma handler_bounds (pf : Media.Platform) (ans : Media.Answers) (ev : Media.Event)
    (s : Media.State) :
  Media.enabled ev s = true ->
  Media.inv s ->
  Media.bounds s ->
  Media.bounds (final (Media.handler pf ans ev s)).
Proof.
  intros He [I1 I2] (B1 & B2 & B3 & B4 & B5).
  destruct ev; cbn [Media.handler].
  - open_state s. media_cases; bounds_done.
  - open_state s. media_cases; bounds_done.
  - open_state s. media_cases; bounds_done.
  - apply wsErrorHandler_bounds; assumption.
  - open_state s. media_cases; bounds_done.
  - unfold Media.onmessage. rewrite try_catch_final.
    pose proof (message_body_fields pf ans msg s) as (F1 & F2 & F3 & F4 & F5 & F6 & F7).
    destruct msg; cbn zeta in *; destruct (outcome _).
    all: try (apply wsErrorHandler_bounds;
              [destruct F6 as [-> | ->]; lia | now rewrite F5]).
    all: unfold Media.bounds; rewrite F1, F2, F3, F4, F5;
      (split; [destruct F6 as [-> | ->]; lia|]);
      (split; [intros Ht; destruct F6 as [-> | ->]; [auto | lia]|]);
      (split; [exact B3|]); (split; [exact (F7 B4) | exact B5]).
  - open_state s. cbn in He. destruct t as [h|]; [|discriminate].
    assert (Hm : m <= 4) by (apply B2; congruence). clear B2.
    media_cases; bounds_done.
  - open_state s. cbn in He. media_cases; bounds_done.
  - open_state s. cbn in He. destruct d as [d0|]; [|discriminate].
    assert (Hc : c <> "") by (apply B4; congruence).
    media_cases; bounds_done.
  - pose proof (drawPendingFrame_fields pf ans s)
      as (F1 & F2 & F3 & F4 & F5 & F6 & F7 & F8).
    cbn zeta in *. unfold Media.bounds. rewrite F1, F2, F3, F4, F5, F6, F7.
    split; [exact B1|]. split; [exact B2|].
    split; [destruct F8 as [-> | ->]; lia|]. split; [exact B4 | exact B5].
  - open_state s. media_cases; bounds_done.
Qed.

Lemma bounds_init (c : Media.Canvas) : Media.bounds (Media.init c).
Proof. unfold Media.bounds; cbn. repeat split; try lia; congruence. Qed.

Lemma reachable_bounds (pf : Media.Platform) (s : Media.State) :
  Media.reachable pf s -> Media.bounds s.
Proof.
  induction 1 as [c | ans ev s Hr IH].
  - apply bounds_init.
  - unfold Media.step. destruct (Media.enabled ev s) eqn:He; [|exact IH].
    apply handler_bounds; auto. now apply (reachable_inv pf).
Qed.

(** X1.  In every state a history can reach: the missed-beat counter is
    within 0..5, and at most 4 while the heartbeat interval runs, which it
    only does on a socket; the frame counter is not negative; a frame waits
    only while a decoder exists, and a decoder exists only with a codec
    identifier; a socket on which [close()] was not called means the
    streamer is not stopped and its attempt mark is set. *)
Theorem media_state_bounds (pf : Media.Platform) (s : Media.State) :
  Media.reachable pf s ->
  0 <= Media.missed_heartbeats s <= 5
  /\ (Media.ping_timer s <> None ->
      Media.missed_heartbeats s <= 4 /\ Media.ws s <> None)
  /\ 0 <= Media.fps_accum s
  /\ (Media.frame s <> None -> Media.decoder s <> None)
  /\ (Media.decoder s <> None -> Media.codec s <> "")
  /\ (forall w, Media.ws s = Some w -> Media.close_called w = false ->
      Media.stop s = false /\ Media.ensuring s = true).
Proof.
  intros Hr.
  destruct (reachable_inv pf s Hr) as [I1 I2].
  destruct (reachable_bounds pf s Hr) as (B1 & B2 & B3 & B4 & B5).
  split; [exact B1|]. split; [intros Ht; split; [apply B2 | apply I1]; exact Ht|].
  split; [exact B3|]. split; [exact I2|]. split; [exact B4 | exact B5].
Qed.

Lemma media_state_bounds_witness :
  Media.reachable (Media.chromium 0) (Media.four_missed_state (Media.chromium 0))
  /\ Media.missed_heartbeats (Media.four_missed_state (Media.chromium 0)) <= 4.
Proof.
  assert (Hr : Media.reachable (Media.chromium 0)
                 (Media.four_missed_state (Media.chromium 0)))
    by (apply run_reachable; constructor).
  split; [exact Hr|].
  destruct (media_state_bounds (Media.chromium 0) _ Hr) as (_ & H & _).
  apply H. vm_compute. discriminate.
Defined.

(** ** Direct H.264 streamer: sequences of heartbeat ticks *)

Lemma run_cons (pf : Media.Platform) (a : Media.Answers) (ev : Media.Event)
    (h : list (Media.Answers * Media.Event)) (s : Media.State) :
  Media.run pf ((a, ev) :: h) s = Media.run pf h (Media.step pf a ev s).
Proof. reflexivity. Qed.

Lemma step_enabled (pf : Media.Platform) (a : Media.Answers) (ev : Media.Event)
    (s : Media.State) :
  Media.enabled ev s = true ->
  Media.step pf a ev s = final (Media.handler pf a ev s).
Proof. intros He. unfold Media.step. now rewrite He. Qed.

Lemma ticks_below_threshold (pf : Media.Platform) (answers : list Media.Answers)
    (s : Media.State) :
  Media.ws s <> None ->
  Media.ping_timer s <> None ->
  Media.missed_heartbeats s + Z.of_nat (length answers) <= 4 ->
  Media.missed_heartbeats (Media.run pf (Media.only_ticks answers) s)
  = Media.missed_heartbeats s + Z.of_nat (length answers)
  /\ Media.ws (Media.run pf (Media.only_ticks answers) s) = Media.ws s
  /\ Media.ping_timer (Media.run pf (Media.only_ticks answers) s)
     = Media.ping_timer s.
Proof.
  revert s. induction answers as [|a rest IH]; intros s Hw Ht Hm.
  - cbn. repeat split. lia.
  - cbn [length] in Hm. rewrite Nat2Z.inj_succ in Hm.
    cbn [Media.only_ticks map]. fold (Media.only_ticks rest).
    assert (He : Media.enabled Media.PingTick s = true)
      by (cbn; destruct (Media.ping_timer s); [reflexivity | congruence]).
    rewrite run_cons, (step_enabled pf a _ s He). cbn [Media.handler].
    destruct (ping_below_threshold pf a s Hw ltac:(lia)) as (_ & H1 & H2 & H3 & _).
    destruct (IH (final (Media.ping pf a s))) as (J1 & J2 & J3).
    + rewrite H2. exact Hw.
    + rewrite H3. exact Ht.
    + rewrite H1. lia.
    + rewrite J1, J2, J3, H1, H2, H3. cbn [length]. rewrite Nat2Z.inj_succ.
      repeat split. lia.
Qed.

Lemma run_app (pf : Media.Platform) (h1 h2 : list (Media.Answers * Media.Event))
    (s : Media.State) :
  Media.run pf (h1 ++ h2) s = Media.run pf h2 (Media.run pf h1 s).
Proof. unfold Media.run. apply fold_left_app. Qed.

(** X2.  After a pong the streamer survives exactly four silent ticks: up
    to four ticks in a row leave the socket and the interval in place and
    count the misses, and a fifth closes the socket, clears the interval
    and resets the counter. *)
Theorem pong_buys_four_ticks (pf : Media.Platform) (ans fifth : Media.Answers)
    (answers : list Media.Answers) (data : list byte) (s : Media.State) :
  Media.reachable pf s ->
  Media.enabled Media.PingTick s = true ->
  Media.closes_return fifth ->
  (length answers <= 4)%nat ->
  Media.missed_heartbeats
    (Media.run pf (Media.only_ticks answers)
       (final (Media.onmessage pf ans (Media.BinaryMessage (xff :: data)) s)))
  = Z.of_nat (length answers)
  /\ Media.ws
       (Media.run pf (Media.only_ticks answers)
          (final (Media.onmessage pf ans (Media.BinaryMessage (xff :: data)) s)))
     = Media.ws s
  /\ (length answers = 4%nat ->
      Media.ws
        (Media.run pf (Media.only_ticks (answers ++ [fifth]))
           (final (Media.onmessage pf ans (Media.BinaryMessage (xff :: data)) s)))
      = None
      /\ Media.ping_timer
           (Media.run pf (Media.only_ticks (answers ++ [fifth]))
              (final (Media.onmessage pf ans (Media.BinaryMessage (xff :: data)) s)))
         = None
      /\ Media.missed_heartbeats
           (Media.run pf (Media.only_ticks (answers ++ [fifth]))
              (final (Media.onmessage pf ans (Media.BinaryMessage (xff :: data)) s)))
         = 0).
Proof.
  intros Hr He Hc Hl.
  rewrite pong_resets. cbn [final].
  set (s0 := Media.set_missed_heartbeats 0 s).
  destruct (reachable_inv pf s Hr) as [I1 _].
  assert (Ht : Media.ping_timer s <> None)
    by (cbn in He; destruct (Media.ping_timer s); [congruence | discriminate]).
  assert (Hw0 : Media.ws s0 = Media.ws s) by (now destruct s).
  assert (Ht0 : Media.ping_timer s0 = Media.ping_timer s) by (now destruct s).
  assert (Hm0 : Media.missed_heartbeats s0 = 0) by (now destruct s).
  destruct (ticks_below_threshold pf answers s0) as (J1 & J2 & J3).
  { rewrite Hw0. auto. }
  { rewrite Ht0. exact Ht. }
  { rewrite Hm0. lia. }
  rewrite J1, J2, Hm0, Hw0.
  split; [lia|]. split; [reflexivity|]. intros H4.
  unfold Media.only_ticks. rewrite map_app, run_app.
  fold (Media.only_ticks answers).
  set (s4 := Media.run pf (Media.only_ticks answers) s0) in *.
  cbn [map].
  assert (He4 : Media.enabled Media.PingTick s4 = true)
    by (cbn; rewrite J3, Ht0; destruct (Media.ping_timer s);
        [reflexivity | congruence]).
  rewrite run_cons, (step_enabled pf fifth _ s4 He4).
  cbn [Media.handler Media.run fold_left].
  destruct (ping_at_threshold pf fifth s4 Hc) as (_ & K1 & K2 & K3 & _).
  { rewrite J1, Hm0, H4. cbn. lia. }
  auto.
Qed.

Lemma pong_buys_four_ticks_witness :
  Media.reachable (Media.chromium 0) (Media.four_missed_state (Media.chromium 0))
  /\ Media.enabled Media.PingTick (Media.four_missed_state (Media.chromium 0)) = true
  /\ Media.closes_return Media.quiet
  /\ (length (repeat Media.quiet 4) <= 4)%nat
  /\ Media.ws
       (Media.run (Media.chromium 0) (Media.only_ticks (repeat Media.quiet 4))
          (final (Media.onmessage (Media.chromium 0) Media.quiet
                    (Media.BinaryMessage [xff])
                    (Media.four_missed_state (Media.chromium 0)))))
     = Media.ws (Media.four_missed_state (Media.chromium 0)).
Proof.
  assert (Hr : Media.reachable (Media.chromium 0)
                 (Media.four_missed_state (Media.chromium 0)))
    by (apply run_reachable; constructor).
  assert (Hc : Media.closes_return Media.quiet) by (split; reflexivity).
  assert (Hl : (length (repeat Media.quiet 4) <= 4)%nat) by (cbn; lia).
  split; [exact Hr|]. split; [reflexivity|]. split; [exact Hc|]. split; [exact Hl|].
  exact (proj1 (proj2 (pong_buys_four_ticks (Media.chromium 0) Media.quiet
                         Media.quiet (repeat Media.quiet 4) []
                         (Media.four_missed_state (Media.chromium 0))
                         Hr eq_refl Hc Hl))).
Defined.

(** ** Direct H.264 streamer: what a handler lets escape *)

Lemma try_catch_calls {S E A : Type} (b : Js.M S E A) (h : string -> Js.M S E A)
    (s : S) :
  calls (try_catch b h s)
  = match outcome (b s) with
    | Normal _ => calls (b s)
    | Throw ex => (calls (b s) ++ calls (h ex (final (b s))))%list
    end.
Proof.
  unfold try_catch. destruct (b s) as [[a|ex] s1 c1]; cbn; [reflexivity|].
  now destruct (h ex s1).
Qed.

Lemma try_catch_outcome {S E A : Type} (b : Js.M S E A) (h : string -> Js.M S E A)
    (s : S) :
  outcome (try_catch b h s)
  = match outcome (b s) with
    | Normal a => Normal a
    | Throw ex => outcome (h ex (final (b s)))
    end.
Proof.
  unfold try_catch. destruct (b s) as [[a|ex] s1 c1]; cbn; [reflexivity|].
  now destruct (h ex s1).
Qed.

(** Symbolic execution with the platform's [close()] methods returning. *)
Ltac quiet_cases Hc :=
  let Hd := fresh "Hd" in
  let Hf := fresh "Hf" in
  destruct Hc as [Hd Hf]; media_eval; rewrite ?Hd, ?Hf; media_cases.

Lemma wsErrorHandler_returns (pf : Media.Platform) (ans : Media.Answers)
    (e : string) (s : Media.State) :
  Media.closes_return ans ->
  outcome (Media.wsErrorHandler pf ans e s) = Normal tt.
Proof.
  intros Hc. destruct s as [st en w t m c d fr cv snap acc].
  quiet_cases Hc; reflexivity.
Qed.

(** X3.  Of the failures the platform can produce in the calls the source
    guards ([send] on a missing socket, [configure], [decode], [drawImage],
    and the two [close()] methods), none escapes a callback while the
    [close()] methods return normally, whatever state the callback runs in,
    except from the display refresh when painting the frame raises: every
    other failure is caught and turned into a socket error. *)
Theorem handlers_contain_exceptions (pf : Media.Platform) (ans : Media.Answers)
    (ev : Media.Event) (s : Media.State) :
  Media.closes_return ans ->
  (ev = Media.AnimationFrame -> Media.draw_throws ans = false) ->
  outcome (Media.handler pf ans ev s) = Normal tt.
Proof.
  intros Hc Hdraw.
  destruct ev; cbn [Media.handler].
  - destruct s as [st en w t m c d fr cv snap acc]. media_cases; reflexivity.
  - destruct s as [st en w t m c d fr cv snap acc].
    quiet_cases Hc; reflexivity.
  - destruct s as [st en w t m c d fr cv snap acc]. media_cases; reflexivity.
  - now apply wsErrorHandler_returns.
  - destruct s as [st en w t m c d fr cv snap acc].
    quiet_cases Hc; reflexivity.
  - unfold Media.onmessage. rewrite try_catch_outcome.
    destruct (outcome _) as [[]|ex]; [reflexivity|].
    now apply wsErrorHandler_returns.
  - unfold Media.ping. rewrite try_catch_outcome.
    destruct (outcome _) as [[]|ex]; [reflexivity|].
    now apply wsErrorHandler_returns.
  - destruct s as [st en w t m c d fr cv snap acc].
    quiet_cases Hc; reflexivity.
  - reflexivity.
  - specialize (Hdraw eq_refl). destruct Hc as [_ Hf].
    destruct s as [st en w t m c d fr cv snap acc].
    unfold Media.drawPendingFrame.
    cbn [bind gets Media.frame Js.final Js.outcome Js.calls].
    destruct fr as [f|]; [|reflexivity].
    destruct (Media.display_size pf f) as [dw dh].
    media_eval; rewrite ?Hdraw, ?Hf; media_cases; reflexivity.
  - destruct s as [st en w t m c d fr cv snap acc]. media_cases; reflexivity.
Qed.

Lemma handlers_contain_exceptions_witness :
  Media.closes_return Media.decode_fails
  /\ In (Media.DecoderDecode true [x00; x00; x00; x01])
        (calls (Media.handler (Media.chromium 0) Media.decode_fails
                  (Media.SocketMessage Media.keyframe)
                  (Media.decoding_state (Media.chromium 0))))
  /\ In (Media.SetInfo false false "DataError")
        (calls (Media.handler (Media.chromium 0) Media.decode_fails
                  (Media.SocketMessage Media.keyframe)
                  (Media.decoding_state (Media.chromium 0))))
  /\ outcome (Media.handler (Media.chromium 0) Media.decode_fails
                (Media.SocketMessage Media.keyframe)
                (Media.decoding_state (Media.chromium 0)))
     = Normal tt.
Proof.
  assert (Hc : Media.closes_return Media.decode_fails) by (split; reflexivity).
  split; [exact Hc|].
  split; [vm_compute; auto|]. split; [vm_compute; auto 10|].
  apply (handlers_contain_exceptions (Media.chromium 0) Media.decode_fails
           (Media.SocketMessage Media.keyframe)
           (Media.decoding_state (Media.chromium 0)) Hc).
  intros H. discriminate H.
Defined.

(** ** Direct H.264 streamer: a stopped streamer stays stopped *)

Lemma filter_app_nil {A : Type} (p : A -> bool) (l1 l2 : list A) :
  List.filter p l1 = [] -> List.filter p l2 = [] -> List.filter p (l1 ++ l2) = [].
Proof. intros H1 H2. now rewrite List.filter_app, H1, H2. Qed.

Lemma message_body_calls (pf : Media.Platform) (ans : Media.Answers)
    (msg : Media.Message) (s : Media.State) :
  let r := match msg with
           | Media.TextMessage ev_type video => Media.wsJsonHandler pf ans ev_type video s
           | Media.BinaryMessage data => Media.wsBinHandler pf ans data s
           end in
  List.filter Media.is_new_socket (calls r) = []
  /\ List.filter Media.is_reconnect (calls r) = [].
Proof.
  destruct s as [st en w t m c d f cv sn acc].
  destruct msg; cbn zeta; media_cases; split; reflexivity.
Qed.

Lemma wsErrorHandler_stopped (pf : Media.Platform) (ans : Media.Answers)
    (e : string) (s : Media.State) :
  Media.stop s = true ->
  Media.stop (final (Media.wsErrorHandler pf ans e s)) = true
  /\ List.filter Media.is_new_socket (calls (Media.wsErrorHandler pf ans e s)) = []
  /\ List.filter Media.is_reconnect (calls (Media.wsErrorHandler pf ans e s)) = [].
Proof.
  destruct s as [st en w t m c d f cv sn acc]. cbn [Media.stop]. intros ->.
  media_cases; repeat split; reflexivity.
Qed.

Lemma handler_stopped (pf : Media.Platform) (ans : Media.Answers)
    (ev : Media.Event) (s : Media.State) :
  Media.stop s = true ->
  Media.is_ensure_stream ev = false ->
  Media.stop (final (Media.handler pf ans ev s)) = true
  /\ List.filter Media.is_new_socket (calls (Media.handler pf ans ev s)) = []
  /\ List.filter Media.is_reconnect (calls (Media.handler pf ans ev s)) = [].
Proof.
  intros Hs Hev.
  destruct ev; try discriminate Hev; cbn [Media.handler].
  - destruct s as [st en w t m c d f cv sn acc].
    media_cases; repeat split; reflexivity.
  - destruct s as [st en w t m c d f cv sn acc]. cbn [Media.stop] in Hs. subst st.
    media_cases; repeat split; reflexivity.
  - now apply wsErrorHandler_stopped.
  - destruct s as [st en w t m c d f cv sn acc]. cbn [Media.stop] in Hs. subst st.
    media_cases; repeat split; reflexivity.
  - unfold Media.onmessage.
    rewrite try_catch_final, try_catch_calls.
    pose proof (message_body_fields pf ans msg s) as (F1 & _).
    pose proof (message_body_calls pf ans msg s) as (G1 & G2).
    destruct msg; cbn zeta in *; destruct (outcome _).
    all: try (split; [congruence | split; assumption]).
    all: match goal with
         | |- context [Media.wsErrorHandler ?p ?a ?e ?s'] =>
             destruct (wsErrorHandler_stopped p a e s') as (K1 & K2 & K3);
             [congruence|]
         end;
      split; [exact K1|]; split; apply filter_app_nil; assumption.
  - destruct s as [st en w t m c d f cv sn acc]. cbn [Media.stop] in Hs. subst st.
    media_cases; repeat split; reflexivity.
  - destruct s as [st en w t m c d fr cv sn acc]. cbn [Media.stop] in Hs. subst st.
    media_cases; repeat split; reflexivity.
  - destruct s as [st en w t m c d fr cv sn acc]. cbn [Media.stop] in Hs. subst st.
    repeat split; reflexivity.
  - destruct s as [st en w t m c d fr cv sn acc]. cbn [Media.stop] in Hs. subst st.
    unfold Media.drawPendingFrame.
    cbn [bind gets Media.frame Js.final Js.outcome Js.calls].
    destruct fr as [f|]; [|repeat split; reflexivity].
    destruct (Media.display_size pf f) as [dw dh].
    media_cases; repeat split; reflexivity.
  - destruct s as [st en w t m c d fr cv sn acc]. cbn [Media.stop] in Hs. subst st.
    media_cases; repeat split; reflexivity.
Qed.

(** X4.  Once stopped, the streamer is restarted by [ensureStream] only:
    through any history of other events (socket callbacks, heartbeat ticks,
    messages, decoder output, display refreshes, reconnection timeouts that
    were pending, further [stopStream] calls) it stays stopped, opens no
    socket and schedules no reconnection, whatever the platform answers. *)
Theorem stopped_stays_stopped (pf : Media.Platform)
    (history : list (Media.Answers * Media.Event)) (s : Media.State) :
  Media.stop s = true ->
  forallb (fun '(_, ev) => negb (Media.is_ensure_stream ev)) history = true ->
  Media.stop (Media.run pf history s) = true
  /\ List.filter Media.is_new_socket (Media.trace pf history s) = []
  /\ List.filter Media.is_reconnect (Media.trace pf history s) = [].
Proof.
  revert s. induction history as [|[a ev] rest IH]; intros s Hs Hh.
  - cbn. auto.
  - cbn [forallb] in Hh. apply andb_true_iff in Hh as [Hev Hrest].
    apply negb_true_iff in Hev.
    rewrite run_cons. cbn [Media.trace].
    destruct (handler_stopped pf a ev s Hs Hev) as (K1 & K2 & K3).
    assert (Hs' : Media.stop (Media.step pf a ev s) = true)
      by (unfold Media.step; destruct (Media.enabled ev s); assumption).
    destruct (IH _ Hs' Hrest) as (J1 & J2 & J3).
    split; [exact J1|].
    destruct (Media.enabled ev s);
      split; apply filter_app_nil; auto.
Qed.

Lemma stopped_stays_stopped_witness :
  Media.stop (final (Media.stopStream (Media.chromium 0) Media.quiet
                       (Media.streaming_state (Media.chromium 0)))) = true
  /\ List.filter Media.is_new_socket
       (Media.trace (Media.chromium 0)
          [(Media.quiet, Media.ReconnectTimeout); (Media.quiet, Media.AnimationFrame);
           (Media.quiet, Media.StopStream)]
          (final (Media.stopStream (Media.chromium 0) Media.quiet
                    (Media.streaming_state (Media.chromium 0))))) = [].
Proof.
  split; [reflexivity|].
  exact (proj1 (proj2 (stopped_stays_stopped (Media.chromium 0)
                         [(Media.quiet, Media.ReconnectTimeout);
                          (Media.quiet, Media.AnimationFrame);
                          (Media.quiet, Media.StopStream)]
                         (final (Media.stopStream (Media.chromium 0) Media.quiet
                                   (Media.streaming_state (Media.chromium 0))))
                         eq_refl eq_refl))).
Defined.

(** ** Direct H.264 streamer: messages *)

Lemma header_0 (data : list byte) :
  nth_error (firstn 2 data) 0 = nth_error data 0.
Proof. destruct data as [|a [|b rest]]; reflexivity. Qed.

Lemma header_1 (data : list byte) :
  nth_error (firstn 2 data) 1 = nth_error data 1.
Proof. destruct data as [|a [|b rest]]; reflexivity. Qed.

Lemma byte_is_true (x : option byte) (b : byte) :
  Media.byte_is x b = true <-> x = Some b.
Proof.
  destruct x as [y|]; cbn; [|split; discriminate].
  split; intros H.
  - f_equal. now apply Byte.byte_dec_bl.
  - injection H as ->. now apply Byte.byte_dec_lb.
Qed.

Lemma byte_is_false (x : option byte) (b : byte) :
  Media.byte_is x b = false <-> x <> Some b.
Proof.
  rewrite <- byte_is_true. destruct (Media.byte_is x b); split; congruence.
Qed.

(** X5.  A message the protocol does not know is dropped without a trace:
    a parsed text message whose type is not ["media"], and a binary message
    that is empty or whose first byte is neither 0xFF nor 0x01, change no
    variable, call nothing and raise nothing. *)
Theorem unknown_messages_ignored (pf : Media.Platform) (ans : Media.Answers)
    (msg : Media.Message) (s : Media.State) :
  match msg with
  | Media.TextMessage ev_type _ => ev_type <> "media"
  | Media.BinaryMessage data =>
      nth_error data 0 <> Some xff /\ nth_error data 0 <> Some x01
  end ->
  Media.onmessage pf ans msg s = mkRun (Normal tt) s [].
Proof.
  destruct msg as [ev_type video | data]; intros H.
  - apply String.eqb_neq in H.
    unfold Media.onmessage, Media.wsJsonHandler, try_catch. rewrite H.
    reflexivity.
  - destruct H as [H1 H2].
    unfold Media.onmessage, Media.wsBinHandler, try_catch. cbn zeta.
    rewrite header_0.
    apply byte_is_false in H1, H2. rewrite H1, H2. reflexivity.
Qed.

Lemma unknown_messages_ignored_witness :
  (nth_error [x02; x01] 0 <> Some xff /\ nth_error [x02; x01] 0 <> Some x01)
  /\ Media.onmessage (Media.chromium 0) Media.quiet (Media.BinaryMessage [x02; x01])
       (Media.streaming_state (Media.chromium 0))
     = mkRun (Normal tt) (Media.streaming_state (Media.chromium 0)) [].
Proof.
  assert (H : nth_error [x02; x01] 0 <> Some xff /\ nth_error [x02; x01] 0 <> Some x01)
    by (split; discriminate).
  split; [exact H|].
  exact (unknown_messages_ignored (Media.chromium 0) Media.quiet
           (Media.BinaryMessage [x02; x01])
           (Media.streaming_state (Media.chromium 0)) H).
Defined.







Lemma wsErrorHandler_teardown (pf : Media.Platform) (ans : Media.Answers)
    (e : string) (s : Media.State) :
  Media.closes_return ans ->
  let r := Media.wsErrorHandler pf ans e s in
  Media.ws (final r) = None
  /\ Media.ping_timer (final r) = None
  /\ Media.decoder (final r) = None
  /\ (Media.decoder s <> None -> Media.frame (final r) = None)
  /\ Media.missed_heartbeats (final r) = 0
  /\ Media.fps_accum (final r) = 0
  /\ List.filter Media.is_reconnect (calls r)
     = (if Media.stop s then [] else [Media.SetTimeoutEnsureMedia 1000])
  /\ In (Media.SetInfo false false e) (calls r).
Proof.
  intros Hc. destruct s as [st en w t m c d fr cv snap acc]. cbn zeta.
  quiet_cases Hc; cbn; repeat split; intros; auto; congruence.
Qed.

(** X7.  On a configured decoder every video message is handed to the
    decoder and nothing else happens: the streamer reports itself active
    and decodes, and no variable changes.  If the decoder rejects the chunk,
    the exception is caught and the connection is torn down instead: socket,
    heartbeat and decoder are dropped, the counters are reset, the error
    text is shown, and one reconnection is scheduled unless the streamer is
    stopped.  The platform's [close()] methods are taken to return. *)
Theorem video_message_on_configured_decoder (pf : Media.Platform)
    (ans : Media.Answers) (data : list byte) (s : Media.State) :
  Media.closes_return ans ->
  nth_error data 0 = Some x01 ->
  Media.codec s <> "" ->
  Media.decoder s = Some Media.Configured ->
  let key := Media.byte_truthy (nth_error data 1) in
  let r := Media.onmessage pf ans (Media.BinaryMessage data) s in
  firstn 2 (calls r) = [Media.SetActive; Media.DecoderDecode key (skipn 2 data)]
  /\ outcome r = Normal tt
  /\ (Media.decode_throws ans = false ->
      final r = s /\ length (calls r) = 2%nat)
  /\ (Media.decode_throws ans = true ->
      Media.ws (final r) = None
      /\ Media.ping_timer (final r) = None
      /\ Media.decoder (final r) = None
      /\ Media.frame (final r) = None
      /\ Media.missed_heartbeats (final r) = 0
      /\ Media.fps_accum (final r) = 0
      /\ In (Media.SetInfo false false "DataError") (calls r)
      /\ List.filter Media.is_reconnect (calls r)
         = (if Media.stop s then [] else [Media.SetTimeoutEnsureMedia 1000])).
Proof.
  intros Hc H0 Hcodec Hd key r. subst r.
  unfold Media.onmessage.
  rewrite try_catch_calls, try_catch_outcome, try_catch_final.
  unfold Media.wsBinHandler. cbn zeta. rewrite header_0, header_1, H0.
  fold key. clearbody key.
  change (Media.byte_is (Some x01) xff) with false.
  change (Media.byte_is (Some x01) x01) with true. cbv iota.
  destruct s as [st en w t m c d fr cv snap acc].
  cbn [Media.codec Media.decoder] in Hcodec, Hd. subst d.
  apply String.eqb_neq in Hcodec.
  set (h := Media.wsErrorHandler pf ans).
  media_eval. rewrite Hcodec. media_eval.
  destruct (Media.decode_throws ans) eqn:Hdt; media_eval.
  - subst h.
    destruct (wsErrorHandler_teardown pf ans "DataError"
                (Media.mkState st en w t m c (Some Media.Configured) fr cv snap acc) Hc)
      as (T1 & T2 & T3 & T4 & T5 & T6 & T7 & T8).
    split; [reflexivity|].
    split; [now apply wsErrorHandler_returns|].
    split; [discriminate|]. intros _.
    split; [exact T1|]. split; [exact T2|]. split; [exact T3|].
    split; [apply T4; discriminate|]. split; [exact T5|]. split; [exact T6|].
    split; [right; right; exact T8|]. exact T7.
  - split; [reflexivity|]. split; [reflexivity|].
    split; [intros _; split; reflexivity | discriminate].
Qed.

Lemma video_message_on_configured_decoder_witness :
  Media.closes_return Media.quiet
  /\ final (Media.onmessage (Media.chromium 0) Media.quiet Media.keyframe
              (Media.streaming_state (Media.chromium 0)))
     = Media.streaming_state (Media.chromium 0).
Proof.
  assert (Hc : Media.closes_return Media.quiet) by (split; reflexivity).
  split; [exact Hc|].
  refine (proj1 (proj1 (proj2 (proj2
            (video_message_on_configured_decoder (Media.chromium 0) Media.quiet
               [x01; x01; x00; x00; x00; x01]
               (Media.streaming_state (Media.chromium 0)) Hc eq_refl _ eq_refl)))
            eq_refl)).
  vm_compute. discriminate.
Defined.

(** X8.  Every ["media"] announcement first tears the decoder down, so a
    frame is decoded again only after a new keyframe.  If it offers H.264
    and the browser has [VideoDecoder], the codec identifier becomes
    ["avc1."] followed by the announced profile and exactly one start request is
    sent on the socket.  If it does not, no start request is sent and a
    message is shown instead; the codec identifier is then cleared only if a
    decoder existed, and is otherwise left as it was.  The platform's
    [close()] methods are taken to return. *)
Theorem media_announcement (pf : Media.Platform) (ans : Media.Answers)
    (video : Media.Formats) (s : Media.State) :
  Media.closes_return ans ->
  Media.ws s <> None ->
  let r := Media.onmessage pf ans (Media.TextMessage "media" video) s in
  outcome r = Normal tt
  /\ Media.ws (final r) = Media.ws s
  /\ Media.decoder (final r) = None
  /\ (Media.decoder s <> None -> Media.frame (final r) = None)
  /\ match Media.h264 video with
     | Some profile_level_id =>
         if Media.has_VideoDecoder pf then
           Media.codec (final r) = "avc1." ++ profile_level_id
           /\ List.filter Media.is_start (calls r) = [Media.WsSendStart]
         else
           Media.codec (final r)
           = (if is_null (Media.decoder s) then Media.codec s else "")
           /\ List.filter Media.is_start (calls r) = []
           /\ In (Media.SetInfo false false
                    (if Media.is_https pf
                     then "This browser can't handle direct H.264 stream"
                     else "Direct H.264 requires HTTPS")) (calls r)
     | None =>
         Media.codec (final r)
         = (if is_null (Media.decoder s) then Media.codec s else "")
         /\ List.filter Media.is_start (calls r) = []
         /\ In (Media.SetInfo false false "No H.264 stream available on PiKVM")
               (calls r)
     end.
Proof.
  intros Hc Hw. destruct s as [st en w t m c d fr cv snap acc].
  cbn [Media.ws Media.decoder Media.codec] in *.
  destruct w as [w0|]; [clear Hw | congruence].
  cbn zeta. unfold Media.onmessage, Media.wsJsonHandler.
  change (String.eqb "media" "media") with true. cbv iota.
  unfold Media.setupCodec.
  destruct video as [[p|]]; cbn [Media.h264].
  - destruct (Media.has_VideoDecoder pf) eqn:Hv.
    + quiet_cases Hc; try congruence; cbn; repeat split; intros; auto; congruence.
    + destruct (Media.is_https pf) eqn:Hs.
      all: quiet_cases Hc; try congruence; cbn; repeat split; intros; auto 10;
        congruence.
  - quiet_cases Hc; try congruence; cbn; repeat split; intros; auto 10; congruence.
Qed.

Lemma media_announcement_witness :
  Media.closes_return Media.quiet
  /\ Media.decoder
       (final (Media.onmessage (Media.chromium 0) Media.quiet Media.media_h264
                 (Media.streaming_state (Media.chromium 0)))) = None.
Proof.
  assert (Hc : Media.closes_return Media.quiet) by (split; reflexivity).
  split; [exact Hc|].
  refine (proj1 (proj2 (proj2
            (media_announcement (Media.chromium 0) Media.quiet
               (Media.mkFormats (Some "42E01F"))
               (Media.streaming_state (Media.chromium 0)) Hc _)))).
  vm_compute. discriminate.
Defined.

(** ** Direct H.264 streamer: drawing *)

(** X9.  Drawing the pending frame paints it exactly once; the drawing
    context is saved once and restored once when the orientation is not 0
    and not touched otherwise, also when painting raises; the frame counter
    goes up by one exactly when painting did not raise; and the callback
    returns normally exactly when neither painting nor the release of the
    frame raised. *)
Theorem draw_restores_context (pf : Media.Platform) (ans : Media.Answers)
    (s : Media.State) (f : Media.VideoFrame) :
  Media.frame s = Some f ->
  let r := Media.drawPendingFrame pf ans s in
  List.filter Media.is_draw (calls r) = [Media.CtxDrawImage f]
  /\ Media.count_calls Media.is_save (calls r)
     = (if Media.orient pf =? 0 then 0%nat else 1%nat)
  /\ Media.count_calls Media.is_restore (calls r)
     = Media.count_calls Media.is_save (calls r)
  /\ Media.fps_accum (final r)
     = (if Media.draw_throws ans then Media.fps_accum s else Media.fps_accum s + 1)
  /\ (outcome r = Normal tt <->
      Media.draw_throws ans = false
      /\ (Media.is_firefox pf = true \/ Media.frame_close_throws ans = false)).
Proof.
  destruct s as [st en w t m c d fr cv snap acc]. cbn [Media.frame]. intros ->.
  cbn zeta. unfold Media.drawPendingFrame, Media.count_calls.
  cbn [bind gets Media.frame Js.final Js.outcome Js.calls].
  destruct (Media.display_size pf f) as [dw dh].
  destruct (Media.draw_throws ans) eqn:Hdt;
    destruct (Media.frame_close_throws ans) eqn:Hft;
    destruct (Media.is_firefox pf) eqn:Hff;
    destruct (Media.orient pf =? 0) eqn:Ho;
    media_eval; rewrite ?Hdt, ?Hft, ?Hff, ?Ho; media_cases; cbn;
    repeat split; intros; auto; try congruence; try tauto;
    try (intuition congruence).
Qed.

Lemma draw_restores_context_witness :
  Media.frame (Media.streaming_state (Media.chromium 90)) = Some (Media.sample_frame 0)
  /\ Media.count_calls Media.is_restore
       (calls (Media.drawPendingFrame (Media.chromium 90) Media.draw_fails
                 (Media.streaming_state (Media.chromium 90))))
     = Media.count_calls Media.is_save
         (calls (Media.drawPendingFrame (Media.chromium 90) Media.draw_fails
                   (Media.streaming_state (Media.chromium 90)))).
Proof.
  split; [reflexivity|].
  exact (proj1 (proj2 (proj2
           (draw_restores_context (Media.chromium 90) Media.draw_fails
              (Media.streaming_state (Media.chromium 90)) (Media.sample_frame 0)
              eq_refl)))).
Defined.

(** X10.  After a frame was drawn, [getResolution] reports the frame's
    display size as the real size of the stream, swapped for orientations
    90 and 270, whether or not painting raised; a dimension that is 0 is
    reported as the layout size of the canvas instead, and the layout size is
    always what the view size reports. *)
Theorem resolution_follows_drawn_frame (pf : Media.Platform) (ans : Media.Answers)
    (s : Media.State) (f : Media.VideoFrame) (offsetWidth offsetHeight : Z) :
  Media.frame s = Some f ->
  let res := Media.getResolution offsetWidth offsetHeight
               (final (Media.drawPendingFrame pf ans s)) in
  let size := Media.display_size pf f in
  Media.real_width res = (if fst size =? 0 then offsetWidth else fst size)
  /\ Media.real_height res = (if snd size =? 0 then offsetHeight else snd size)
  /\ Media.view_width res = offsetWidth
  /\ Media.view_height res = offsetHeight
  /\ (Media.orient pf = 90 \/ Media.orient pf = 270 ->
      size = (Media.displayHeight f, Media.displayWidth f))
  /\ (Media.orient pf <> 90 -> Media.orient pf <> 270 ->
      size = (Media.displayWidth f, Media.displayHeight f)).
Proof.
  intros Hf res size. subst res size.
  destruct (drawPendingFrame_canvas pf ans s f Hf) as [Hcv _].
  unfold Media.getResolution, Media.num_or. rewrite Hcv.
  cbn [Media.real_width Media.real_height Media.view_width Media.view_height
       Media.width Media.height].
  repeat split.
  - intros [H | H]; unfold Media.display_size; rewrite H; reflexivity.
  - intros H1 H2. unfold Media.display_size.
    apply Z.eqb_neq in H1, H2. now rewrite H1, H2.
Qed.

Lemma resolution_follows_drawn_frame_witness :
  Media.frame (Media.streaming_state (Media.chromium 270)) = Some (Media.sample_frame 0)
  /\ Media.real_width
       (Media.getResolution 640 360
          (final (Media.drawPendingFrame (Media.chromium 270) Media.quiet
                    (Media.streaming_state (Media.chromium 270)))))
     = 1080.
Proof.
  split; [reflexivity|].
  exact (proj1 (resolution_follows_drawn_frame (Media.chromium 270) Media.quiet
                  (Media.streaming_state (Media.chromium 270)) (Media.sample_frame 0)
                  640 360 eq_refl)).
Defined.

(** ** Direct H.264 streamer: the frame counter *)

Lemma decode_draw_pair (pf : Media.Platform) (a : Media.Answers)
    (f : Media.VideoFrame) (s : Media.State) :
  Media.decoder s = Some Media.Configured ->
  Media.frame s = None ->
  Media.draws_return a ->
  let s' := Media.step pf a Media.AnimationFrame
              (Media.step pf a (Media.DecoderOutput f) s) in
  s' = Media.set_fps_accum (Media.fps_accum s + 1)
         (Media.set_canvas
            (Media.mkCanvas (fst (Media.display_size pf f))
                            (snd (Media.display_size pf f))) s)
  /\ List.filter Media.is_draw
       (Media.trace pf [(a, Media.DecoderOutput f); (a, Media.AnimationFrame)] s)
     = [Media.CtxDrawImage f].
Proof.
  destruct s as [st en w t m c d fr [cw ch] snap acc].
  cbn [Media.decoder Media.frame]. intros -> -> [Hdt Hft].
  cbn zeta. cbn [Media.trace].
  unfold Media.step, Media.display_size.
  media_cases; rewrite ?Hdt, ?Hft; media_cases;
    cbn [Media.width Media.height fst snd] in *; z_tests; try lia; subst;
    try discriminate; cbn; split; reflexivity.
Qed.

Lemma ping_reports (pf : Media.Platform) (ans : Media.Answers) (s : Media.State) :
  Media.ws s <> None ->
  Media.missed_heartbeats s + 1 < 5 ->
  Media.decoder s = Some Media.Configured ->
  calls (Media.ping pf ans s)
  = [Media.WsSendProbe;
     Media.SetInfo true
       (match Media.state s with Some x => source_online x | None => false end)
       (pretty (Media.fps_accum s) ++ " fps dynamic")]
  /\ Media.fps_accum (final (Media.ping pf ans s)) = 0.
Proof.
  destruct s as [st en w t m c d fr cv snap acc].
  cbn [Media.ws Media.missed_heartbeats Media.decoder Media.state Media.fps_accum].
  intros Hw Hm ->. destruct w as [w0|]; [|congruence].
  media_eval. destruct (Z.leb_spec 5 (m + 1)); [lia|].
  media_eval. split; reflexivity.
Qed.

Lemma trace_app (pf : Media.Platform) (h1 h2 : list (Media.Answers * Media.Event))
    (s : Media.State) :
  Media.trace pf (h1 ++ h2) s
  = (Media.trace pf h1 s ++ Media.trace pf h2 (Media.run pf h1 s))%list.
Proof.
  revert s. induction h1 as [|[a ev] rest IH]; intros s; [reflexivity|].
  cbn [app Media.trace]. rewrite run_cons, IH. now rewrite app_assoc.
Qed.

Lemma drawn_frames_state (pf : Media.Platform)
    (frames : list (Media.Answers * Media.VideoFrame)) (s : Media.State) :
  Media.decoder s = Some Media.Configured ->
  Media.frame s = None ->
  Forall (fun af => Media.draws_return (fst af)) frames ->
  let s' := Media.run pf (Media.decoded_and_drawn frames) s in
  Media.fps_accum s' = Media.fps_accum s + Z.of_nat (length frames)
  /\ Media.frame s' = None
  /\ Media.decoder s' = Some Media.Configured
  /\ Media.ws s' = Media.ws s
  /\ Media.missed_heartbeats s' = Media.missed_heartbeats s
  /\ Media.state s' = Media.state s
  /\ List.filter Media.is_draw (Media.trace pf (Media.decoded_and_drawn frames) s)
     = map (fun af => Media.CtxDrawImage (snd af)) frames.
Proof.
  revert s. induction frames as [|[a f] rest IH]; intros s Hd Hfr Hall.
  - cbn. rewrite Z.add_0_r. repeat split; assumption.
  - inversion Hall as [|x l Ha Hrest]; subst. cbn [fst] in Ha.
    destruct (decode_draw_pair pf a f s Hd Hfr Ha) as [Hs Ht].
    cbn zeta in Hs.
    change (Media.decoded_and_drawn ((a, f) :: rest))
      with ([(a, Media.DecoderOutput f); (a, Media.AnimationFrame)]
            ++ Media.decoded_and_drawn rest)%list.
    rewrite run_app, trace_app, List.filter_app, Ht.
    change (Media.run pf [(a, Media.DecoderOutput f); (a, Media.AnimationFrame)] s)
      with (Media.step pf a Media.AnimationFrame
              (Media.step pf a (Media.DecoderOutput f) s)).
    rewrite Hs.
    set (s1 := Media.set_fps_accum _ _).
    destruct (IH s1) as (J1 & J2 & J3 & J4 & J5 & J6 & J7).
    { subst s1. now destruct s. }
    { subst s1. now destruct s. }
    { exact Hrest. }
    cbn zeta in *.
    rewrite J1, J2, J3, J4, J5, J6, J7.
    cbn [length map snd app]. rewrite Nat2Z.inj_succ.
    subst s1. destruct s; cbn. repeat split. lia.
Qed.

(** X11.  The number the heartbeat reports is the number of frames drawn
    since the last report: [n] decoded frames, each drawn before the next
    arrives, paint those [n] frames in order, leave no frame pending and add
    [n] to the frame counter, and the next heartbeat tick on the open socket
    sends the probe, shows that count as ["<n> fps dynamic"] with the
    source's online flag, and resets the counter to 0.  Painting and
    releasing the frames are taken not to raise. *)
Theorem fps_report_counts_drawn_frames (pf : Media.Platform) (ans : Media.Answers)
    (frames : list (Media.Answers * Media.VideoFrame)) (s : Media.State) :
  Media.decoder s = Some Media.Configured ->
  Media.frame s = None ->
  Media.ws s <> None ->
  Media.missed_heartbeats s + 1 < 5 ->
  Forall (fun af => Media.draws_return (fst af)) frames ->
  let s' := Media.run pf (Media.decoded_and_drawn frames) s in
  List.filter Media.is_draw (Media.trace pf (Media.decoded_and_drawn frames) s)
  = map (fun af => Media.CtxDrawImage (snd af)) frames
  /\ Media.frame s' = None
  /\ Media.fps_accum s' = Media.fps_accum s + Z.of_nat (length frames)
  /\ calls (Media.ping pf ans s')
     = [Media.WsSendProbe;
        Media.SetInfo true
          (match Media.state s with Some x => source_online x | None => false end)
          (pretty (Media.fps_accum s + Z.of_nat (length frames)) ++ " fps dynamic")]
  /\ Media.fps_accum (final (Media.ping pf ans s')) = 0.
Proof.
  intros Hd Hfr Hw Hm Hall s'.
  destruct (drawn_frames_state pf frames s Hd Hfr Hall)
    as (J1 & J2 & J3 & J4 & J5 & J6 & J7).
  cbn zeta in *. fold s' in J1, J2, J3, J4, J5, J6.
  destruct (ping_reports pf ans s') as [P1 P2].
  { rewrite J4. exact Hw. }
  { rewrite J5. exact Hm. }
  { exact J3. }
  rewrite J1, J6 in P1.
  split; [exact J7|]. split; [exact J2|]. split; [exact J1|].
  split; [exact P1 | exact P2].
Qed.

Lemma fps_report_counts_drawn_frames_witness :
  Media.decoder (Media.decoding_state (Media.chromium 0)) = Some Media.Configured
  /\ Forall (fun af => Media.draws_return (fst af))
       [(Media.quiet, Media.sample_frame 1); (Media.quiet, Media.sample_frame 2)]
  /\ Media.fps_accum
       (Media.run (Media.chromium 0)
          (Media.decoded_and_drawn
             [(Media.quiet, Media.sample_frame 1); (Media.quiet, Media.sample_frame 2)])
          (Media.decoding_state (Media.chromium 0)))
     = 2.
Proof.
  assert (Hall : Forall (fun af => Media.draws_return (fst af))
                   [(Media.quiet, Media.sample_frame 1);
                    (Media.quiet, Media.sample_frame 2)])
    by (repeat constructor).
  split; [reflexivity|]. split; [exact Hall|].
  refine (proj1 (proj2 (proj2
            (fps_report_counts_drawn_frames (Media.chromium 0) Media.quiet
               [(Media.quiet, Media.sample_frame 1); (Media.quiet, Media.sample_frame 2)]
               (Media.decoding_state (Media.chromium 0))
               eq_refl eq_refl _ _ Hall)))).
  - vm_compute. discriminate.
  - vm_compute. reflexivity.
Defined.

(** ** Direct H.264 streamer: reconnection *)

(** X12.  After an error on a socket that was not closed yet, in any state
    a history can reach, the connection comes back through the scheduled
    timeout and through nothing else: the error handler drops the socket and
    schedules exactly one reconnection; an [ensureStream] call of the owner
    that arrives before the timeout opens nothing, because the attempt mark
    is still set; the timeout then opens exactly one socket; and a second
    timeout after it opens none.  The platform's [close()] methods are taken
    to return. *)
Theorem reconnect_only_by_timeout (pf : Media.Platform) (ans : Media.Answers)
    (e : string) (sn : option Snapshot) (s : Media.State) :
  Media.reachable pf s ->
  Media.enabled Media.SocketOpened s = true ->
  Media.closes_return ans ->
  let r := Media.handler pf ans (Media.SocketError e) s in
  let waiting := final (Media.ensureStream sn (final r)) in
  let retried := final (Media.ensureMedia true waiting) in
  List.filter Media.is_reconnect (calls r) = [Media.SetTimeoutEnsureMedia 1000]
  /\ Media.ws (final r) = None
  /\ List.filter Media.is_new_socket (calls r) = []
  /\ List.filter Media.is_new_socket (calls (Media.ensureStream sn (final r))) = []
  /\ List.filter Media.is_new_socket (calls (Media.ensureMedia true waiting))
     = [Media.NewWebSocket]
  /\ Media.ws retried = Some (Media.mkWs true false)
  /\ List.filter Media.is_new_socket (calls (Media.ensureMedia true retried)) = [].
Proof.
  intros Hr He Hc.
  destruct (reachable_bounds pf s Hr) as (_ & _ & _ & _ & B5).
  destruct s as [st en w t m c d fr cv snap acc].
  cbn [Media.enabled Media.ws Media.stop Media.ensuring] in *.
  destruct w as [[oa cc]|]; [|discriminate].
  cbn [Media.close_called] in *. apply negb_true_iff in He. subst cc.
  destruct (B5 _ eq_refl eq_refl) as [-> ->].
  cbn zeta. cbn [Media.handler].
  quiet_cases Hc; cbn; repeat split; reflexivity.
Qed.

Lemma reconnect_only_by_timeout_witness :
  Media.reachable (Media.chromium 0) (Media.streaming_state (Media.chromium 0))
  /\ Media.enabled Media.SocketOpened (Media.streaming_state (Media.chromium 0)) = true
  /\ Media.closes_return Media.quiet
  /\ List.filter Media.is_reconnect
       (calls (Media.handler (Media.chromium 0) Media.quiet (Media.SocketError "error")
                 (Media.streaming_state (Media.chromium 0))))
     = [Media.SetTimeoutEnsureMedia 1000].
Proof.
  assert (Hr : Media.reachable (Media.chromium 0)
                 (Media.streaming_state (Media.chromium 0)))
    by (apply run_reachable; constructor).
  assert (Hc : Media.closes_return Media.quiet) by (split; reflexivity).
  split; [exact Hr|]. split; [reflexivity|]. split; [exact Hc|].
  exact (proj1 (reconnect_only_by_timeout (Media.chromium 0) Media.quiet "error" None
                  (Media.streaming_state (Media.chromium 0)) Hr eq_refl Hc)).
Defined.

(** ** HTTP MJPEG streamer: what every history keeps *)

Ltac lookup_cases :=
  repeat match goal with
         | H : Mjpeg.js_in _ _ = true |- _ =>
             apply js_in_true in H; destruct H as [? H]
         end;
  try congruence.

(** X13.  No call on the polling streamer lets an exception escape, in any
    state: [ensureStream] reads the snapshot it was just given, and the
    only place where a tick reads the snapshot is behind the test on the
    misspelt property, which never holds. *)
Theorem mjpeg_handlers_never_throw (pf : Mjpeg.Platform) (ans : Mjpeg.Answers)
    (ev : Mjpeg.Event) (s : Mjpeg.State) :
  outcome (Mjpeg.handler pf ans ev s) = Normal tt.
Proof.
  destruct ev as [[x|] | |]; cbn [Mjpeg.handler].
  - destruct s as [k i f sn t n src]. mjpeg_cases; lookup_cases; reflexivity.
  - destruct s as [k i f sn t n src]. mjpeg_cases; reflexivity.
  - destruct s as [k i f sn t n src]. mjpeg_cases; reflexivity.
  - unfold Mjpeg.checkStream, bind at 1. rewrite findId_run.
    destruct (final (Mjpeg.findId ans s)) as [k i f sn t n src].
    mjpeg_eval. rewrite legnth_test. mjpeg_cases; reflexivity.
Qed.

Ltac open_mjpeg s :=
  destruct s as [k i f sn t n src];
  unfold Mjpeg.bounds in *;
  cbn [Mjpeg.key Mjpeg.id Mjpeg.fps Mjpeg.state Mjpeg.timer Mjpeg.timer_retries
       Mjpeg.image_src] in *.

Ltac mjpeg_bounds_done :=
  tests_to_props;
  repeat match goal with
         | |- _ /\ _ => split
         | |- _ -> _ => intro
         end;
  try lia; try congruence; try tauto.

Lemma mjpeg_handler_bounds (pf : Mjpeg.Platform) (ans : Mjpeg.Answers)
    (ev : Mjpeg.Event) (s : Mjpeg.State) :
  Mjpeg.enabled ev s = true ->
  Mjpeg.bounds s ->
  Mjpeg.bounds (final (Mjpeg.handler pf ans ev s)).
Proof.
  intros He (B1 & B2 & B3 & B4).
  destruct ev as [[x|] | |]; cbn [Mjpeg.handler].
  - open_mjpeg s. mjpeg_cases; lookup_cases; mjpeg_bounds_done.
  - open_mjpeg s. mjpeg_cases; mjpeg_bounds_done.
  - open_mjpeg s. mjpeg_cases; mjpeg_bounds_done.
  - unfold Mjpeg.checkStream, bind at 1. rewrite findId_run, findId_frame.
    set (i' := Mjpeg.id (final (Mjpeg.findId ans s))). clearbody i'.
    open_mjpeg s. cbn in He. destruct t as [h|]; [|discriminate].
    assert (Hsn : sn <> None) by (apply B3; discriminate).
    destruct sn as [x|]; [|congruence].
    mjpeg_eval. rewrite legnth_test. mjpeg_cases; mjpeg_bounds_done.
Qed.

Lemma mjpeg_reachable_bounds (pf : Mjpeg.Platform) (s : Mjpeg.State) :
  Mjpeg.reachable pf s -> Mjpeg.bounds s.
Proof.
  induction 1 as [k src | ans ev s Hr IH].
  - unfold Mjpeg.bounds; cbn. repeat split; try lia; congruence.
  - unfold Mjpeg.step. destruct (Mjpeg.enabled ev s) eqn:He; [|exact IH].
    now apply mjpeg_handler_bounds.
Qed.

(** X14.  In every state a history of [ensureStream], [stopStream] and
    timer ticks can reach: the retry budget is within -1..10, and is 0
    whenever no timer runs; a timer runs only while a snapshot is held; and
    without a snapshot the client id is empty and the frame rate is -1. *)
Theorem mjpeg_state_bounds (pf : Mjpeg.Platform) (s : Mjpeg.State) :
  Mjpeg.reachable pf s ->
  -1 <= Mjpeg.timer_retries s <= 10
  /\ (Mjpeg.timer s = None -> Mjpeg.timer_retries s = 0)
  /\ (Mjpeg.timer s <> None -> Mjpeg.state s <> None)
  /\ (Mjpeg.state s = None -> Mjpeg.id s = "" /\ Mjpeg.fps s = Some (-1)).
Proof.
  intros Hr. destruct (mjpeg_reachable_bounds pf s Hr) as (B1 & B2 & B3 & B4).
  split; [exact B2|]. split; [exact B1|]. split; [exact B3 | exact B4].
Qed.

Lemma polling_reachable (pf : Mjpeg.Platform) : Mjpeg.reachable pf Mjpeg.polling.
Proof.
  exact (Mjpeg.reach_step pf Mjpeg.no_cookie (Mjpeg.EnsureStream (Some Mjpeg.lists_42))
           _ (Mjpeg.reach_init pf "K" "")).
Qed.

Lemma mjpeg_state_bounds_witness :
  Mjpeg.reachable Mjpeg.blink Mjpeg.polling
  /\ -1 <= Mjpeg.timer_retries Mjpeg.polling <= 10.
Proof.
  split; [apply polling_reachable|].
  exact (proj1 (mjpeg_state_bounds Mjpeg.blink Mjpeg.polling
                  (polling_reachable Mjpeg.blink))).
Defined.

(** ** HTTP MJPEG streamer: the polling interval *)

Ltac mjpeg_in_cases :=
  repeat match goal with
         | H : In _ [] |- _ => destruct H
         | H : In _ (_ :: _) |- _ => destruct H as [H | H]; [try discriminate H|]
         | H : False |- _ => destruct H
         | H : Some _ = Some _ |- _ => injection H as H
         end.

Lemma checkStream_run (pf : Mjpeg.Platform) (ans : Mjpeg.Answers) (s : Mjpeg.State) :
  Mjpeg.checkStream pf ans s
  = (if negb (String.eqb (Mjpeg.id (final (Mjpeg.findId ans s))) "")
        && (0 <=? Mjpeg.timer_retries s)
     then mkRun (Normal tt)
            (Mjpeg.set_timer_retries (Mjpeg.timer_retries s - 1)
               (final (Mjpeg.findId ans s))) []
     else Mjpeg.failure_path pf ans s).
Proof.
  unfold Mjpeg.checkStream, bind at 1. rewrite findId_run, findId_frame.
  set (i' := Mjpeg.id (final (Mjpeg.findId ans s))). clearbody i'.
  destruct s as [k i f sn t n src]. unfold Mjpeg.failure_path.
  mjpeg_eval. rewrite legnth_test, length_test.
  destruct (String.eqb i' "") eqn:Hi; destruct (0 <=? n) eqn:Hn;
    mjpeg_cases; reflexivity.
Qed.

(** The cases of a tick: the budget branch and the failure branch. *)
Ltac tick_cases s :=
  rewrite checkStream_run, findId_frame;
  set (i' := Mjpeg.id (final (Mjpeg.findId _ s))); clearbody i';
  destruct s as [k i f sn t n src];
  unfold Mjpeg.failure_path, Mjpeg.set_id, Mjpeg.set_timer_retries;
  cbn [Mjpeg.key Mjpeg.id Mjpeg.fps Mjpeg.state Mjpeg.timer Mjpeg.timer_retries
       Mjpeg.image_src];
  destruct (String.eqb i' "") eqn:?; destruct (0 <=? n) eqn:?;
  cbn [negb andb final calls outcome Mjpeg.key Mjpeg.id Mjpeg.fps Mjpeg.state
       Mjpeg.timer Mjpeg.timer_retries Mjpeg.image_src].

(** X15.  The streamer never runs two polling intervals and never loses
    the handle of one: whatever is called in whatever state, an interval is
    started only when none is held, at most one is started, with period
    100 ms and the handle then stored; and a handle that is no longer held
    after the call was passed to [clearInterval] during it. *)
Theorem interval_never_doubled_or_leaked (pf : Mjpeg.Platform) (ans : Mjpeg.Answers)
    (ev : Mjpeg.Event) (s : Mjpeg.State) :
  let r := Mjpeg.handler pf ans ev s in
  (List.filter Mjpeg.is_set_interval (calls r) = []
   \/ (Mjpeg.timer s = None
       /\ List.filter Mjpeg.is_set_interval (calls r)
          = [Mjpeg.SetInterval (Mjpeg.interval_handle ans) 100]
       /\ Mjpeg.timer (final r) = Some (Mjpeg.interval_handle ans)))
  /\ (forall h, Mjpeg.timer s = Some h ->
      Mjpeg.timer (final r) = Some h \/ In (Mjpeg.ClearInterval h) (calls r))
  /\ (forall h, Mjpeg.timer (final r) = Some h ->
      Mjpeg.timer s = Some h
      \/ In (Mjpeg.SetInterval h 100) (calls r)).
Proof.
  cbn zeta.
  destruct ev as [[x|] | |]; cbn [Mjpeg.handler].
  - destruct s as [k i f sn t n src].
    mjpeg_cases; lookup_cases; cbn; repeat split; intros; auto;
      try discriminate; mjpeg_in_cases; subst; auto.
  - destruct s as [k i f sn t n src].
    mjpeg_cases; cbn; repeat split; intros; auto;
      try discriminate; mjpeg_in_cases; subst; auto.
  - destruct s as [k i f sn t n src].
    mjpeg_cases; cbn; repeat split; intros; auto;
      try discriminate; mjpeg_in_cases; subst; auto.
  - tick_cases s; destruct t; destruct (Mjpeg.js_ge f 0); cbn;
      repeat split; intros; auto; try discriminate; mjpeg_in_cases; subst; auto.
Qed.

Lemma checkStream_step (pf : Mjpeg.Platform) (ans : Mjpeg.Answers) (s : Mjpeg.State) :
  let r := Mjpeg.checkStream pf ans s in
  Mjpeg.timer (final r) = None
  \/ (Mjpeg.timer (final r) = Mjpeg.timer s
      /\ Mjpeg.timer_retries (final r) = Mjpeg.timer_retries s - 1
      /\ 0 <= Mjpeg.timer_retries s).
Proof.
  cbn zeta. tick_cases s; tests_to_props;
    first [left; reflexivity | right; repeat split; first [reflexivity | lia]].
Qed.

Lemma ticks_calls_cons (pf : Mjpeg.Platform) (a : Mjpeg.Answers)
    (rest : list Mjpeg.Answers) (s : Mjpeg.State) :
  Mjpeg.timer s <> None ->
  fst (Mjpeg.ticks pf (a :: rest) s)
  = fst (Mjpeg.ticks pf rest (final (Mjpeg.checkStream pf a s)))
  /\ snd (Mjpeg.ticks pf (a :: rest) s)
     = (calls (Mjpeg.checkStream pf a s)
        ++ snd (Mjpeg.ticks pf rest (final (Mjpeg.checkStream pf a s))))%list.
Proof.
  intros Ht. cbn [Mjpeg.ticks]. destruct (Mjpeg.timer s); [|congruence].
  cbn zeta. now destruct (Mjpeg.ticks pf rest _).
Qed.

Lemma ticks_end (pf : Mjpeg.Platform) (answers : list Mjpeg.Answers)
    (s : Mjpeg.State) :
  -1 <= Mjpeg.timer_retries s ->
  Mjpeg.timer_retries s + 2 <= Z.of_nat (length answers) ->
  Mjpeg.timer (fst (Mjpeg.ticks pf answers s)) = None.
Proof.
  revert s. induction answers as [|a rest IH]; intros s Hlo Hn.
  - cbn in Hn. lia.
  - cbn [length] in Hn. rewrite Nat2Z.inj_succ in Hn.
    destruct (Mjpeg.timer s) as [h|] eqn:Ht;
      [|rewrite ticks_stopped by exact Ht; exact Ht].
    destruct (ticks_calls_cons pf a rest s) as [-> _]; [congruence|].
    destruct (checkStream_step pf a s) as [Hstop | (H1 & H2 & H3)].
    + rewrite ticks_stopped by exact Hstop. exact Hstop.
    + apply IH; lia.
Qed.

Lemma ticks_never_activate (pf : Mjpeg.Platform) (answers : list Mjpeg.Answers)
    (s : Mjpeg.State) :
  ~ In Mjpeg.SetActive (snd (Mjpeg.ticks pf answers s)).
Proof.
  revert s. induction answers as [|a rest IH]; intros s; [cbn; tauto|].
  destruct (Mjpeg.timer s) as [h|] eqn:Ht;
    [|rewrite ticks_stopped by exact Ht; cbn; tauto].
  destruct (ticks_calls_cons pf a rest s) as [_ ->]; [congruence|].
  intros Hin. apply in_app_or in Hin as [Hin | Hin].
  - revert Hin. apply checkStream_never_activates.
  - revert Hin. apply IH.
Qed.

(** X16.  Polling always ends, and never by going active: from any state a
    history can reach, whatever the cookie holds at each tick, the interval
    is cleared after at most twelve ticks in a row, and none of the ticks
    reports the stream as active. *)
Theorem polling_always_ends (pf : Mjpeg.Platform) (answers : list Mjpeg.Answers)
    (s : Mjpeg.State) :
  Mjpeg.reachable pf s ->
  (12 <= length answers)%nat ->
  Mjpeg.timer (fst (Mjpeg.ticks pf answers s)) = None
  /\ ~ In Mjpeg.SetActive (snd (Mjpeg.ticks pf answers s)).
Proof.
  intros Hr Hn. destruct (mjpeg_reachable_bounds pf s Hr) as (_ & B2 & _).
  split; [apply ticks_end; lia | apply ticks_never_activate].
Qed.

Lemma polling_always_ends_witness :
  Mjpeg.reachable Mjpeg.blink Mjpeg.polling
  /\ (12 <= length (repeat Mjpeg.cookie_42 12))%nat
  /\ Mjpeg.timer (fst (Mjpeg.ticks Mjpeg.blink (repeat Mjpeg.cookie_42 12) Mjpeg.polling))
     = None.
Proof.
  assert (Hn : (12 <= length (repeat Mjpeg.cookie_42 12))%nat) by (cbn; lia).
  split; [apply polling_reachable|]. split; [exact Hn|].
  exact (proj1 (polling_always_ends Mjpeg.blink (repeat Mjpeg.cookie_42 12)
                  Mjpeg.polling (polling_reachable Mjpeg.blink) Hn)).
Defined.

(** ** HTTP MJPEG streamer: the client id *)

Lemma append_assoc (a b c : string) : ((a ++ b) ++ c = a ++ b ++ c)%string.
Proof.
  induction a as [|x a IH]; [reflexivity|].
  change (String x ((a ++ b) ++ c) = String x (a ++ b ++ c))%string.
  now rewrite IH.
Qed.

Lemma append_nonempty (a b : string) :
  String.eqb (a ++ "/" ++ b) "" = false.
Proof. destruct a; reflexivity. Qed.

Lemma prefix_slash_head (k rest : string) :
  Mjpeg.indexOf_slash k = None ->
  k <> "" ->
  String.prefix "/" (k ++ rest) = false.
Proof.
  unfold Mjpeg.indexOf_slash. destruct k as [|a k]; [congruence|]. intros H _.
  change (String a k ++ rest)%string with (String a (k ++ rest))%string.
  cbn [String.index] in H. cbn [String.prefix] in *.
  destruct (Ascii.ascii_dec _ a); [|reflexivity].
  destruct k; discriminate.
Qed.

Lemma index_tail (a : Ascii.ascii) (k : string) :
  String.index 0 "/" (String a k) = None -> String.index 0 "/" k = None.
Proof.
  cbn [String.index]. destruct (String.prefix "/" (String a k)); [discriminate|].
  destruct (String.index 0 "/" k); [discriminate | reflexivity].
Qed.

Lemma index_after_key (k x : string) :
  Mjpeg.indexOf_slash k = None ->
  Mjpeg.indexOf_slash (k ++ "/" ++ x) = Some (String.length k).
Proof.
  unfold Mjpeg.indexOf_slash. induction k as [|a k IH]; intros H.
  - destruct x; reflexivity.
  - cbn [String.length].
    change (String a k ++ "/" ++ x)%string with (String a (k ++ "/" ++ x))%string.
    change (String.index 0 "/" (String a (k ++ "/" ++ x)))
      with (if String.prefix "/" (String a (k ++ "/" ++ x)) then Some 0%nat
            else match String.index 0 "/" (k ++ "/" ++ x) with
                 | Some n => Some (S n)
                 | None => None
                 end).
    change (String a (k ++ "/" ++ x)) with (String a k ++ "/" ++ x)%string.
    rewrite (prefix_slash_head (String a k) ("/" ++ x) H) by discriminate.
    now rewrite (IH (index_tail a k H)).
Qed.

Lemma slice_after_key (k x : string) :
  Mjpeg.slice_from (S (String.length k)) (k ++ "/" ++ x) = x.
Proof. induction k as [|a k IH]; [reflexivity | exact IH]. Qed.

(** X17.  The client id is read back from the cookie the server sets for
    this session: with a session key that contains no slash, a cookie made
    of the key, a slash and an id resolves the id to exactly that id
    (slashes in the id included); a cookie that does not start with the key
    and a slash is ignored; and an id once resolved is never replaced.
    Looking for the id calls nothing. *)
Theorem findId_reads_own_cookie (ans : Mjpeg.Answers) (s : Mjpeg.State) :
  Mjpeg.indexOf_slash (Mjpeg.key s) = None ->
  calls (Mjpeg.findId ans s) = []
  /\ (forall x, Mjpeg.id s = "" ->
      Mjpeg.cookie ans = Some (Mjpeg.key s ++ "/" ++ x) ->
      final (Mjpeg.findId ans s) = Mjpeg.set_id x s)
  /\ (forall sc, Mjpeg.cookie ans = Some sc ->
      Mjpeg.startsWith sc (Mjpeg.key s ++ "/") = false ->
      final (Mjpeg.findId ans s) = s)
  /\ (Mjpeg.cookie ans = None -> final (Mjpeg.findId ans s) = s)
  /\ (Mjpeg.id s <> "" -> final (Mjpeg.findId ans s) = s).
Proof.
  intros Hk. split; [now rewrite findId_run|].
  split; [|split; [|split]].
  - intros x Hi Hc. destruct s as [k i f sn t n src].
    cbn [Mjpeg.key Mjpeg.id] in *. subst i.
    mjpeg_eval. rewrite Hc.
    change (String.length "" =? 0)%nat with true. cbv iota.
    rewrite append_nonempty. cbv iota.
    unfold Mjpeg.startsWith.
    rewrite <- (append_assoc k "/" x), prefix_append. cbv iota.
    rewrite (append_assoc k "/" x).
    unfold Mjpeg.after_first_slash.
    rewrite (index_after_key k x Hk), slice_after_key. reflexivity.
  - intros sc Hc Hp. destruct s as [k i f sn t n src].
    cbn [Mjpeg.key] in *. mjpeg_eval. rewrite Hc, Hp.
    destruct (String.length i =? 0)%nat; destruct (String.eqb sc ""); reflexivity.
  - intros Hc. destruct s as [k i f sn t n src]. mjpeg_eval. now rewrite Hc.
  - apply findId_resolved.
Qed.

Lemma findId_reads_own_cookie_witness :
  Mjpeg.indexOf_slash (Mjpeg.key Mjpeg.polling) = None
  /\ final (Mjpeg.findId Mjpeg.cookie_42 Mjpeg.polling)
     = Mjpeg.set_id "42" Mjpeg.polling.
Proof.
  split; [reflexivity|].
  exact (proj1 (proj2 (findId_reads_own_cookie Mjpeg.cookie_42 Mjpeg.polling eq_refl))
           "42" eq_refl eq_refl).
Defined.

(** ** HTTP MJPEG streamer: going active *)

(** [ensureStream] with a snapshot, in closed form. *)
Lemma ensureStream_run (ans : Mjpeg.Answers) (x : Snapshot) (s : Mjpeg.State) :
  Mjpeg.ensureStream ans (Some x) s
  = match (if String.eqb (Mjpeg.id (final (Mjpeg.findId ans s))) "" then None
           else Mjpeg.entry_fps (Mjpeg.id (final (Mjpeg.findId ans s)))
                  (clients_stat x)) with
    | Some f' =>
        mkRun (Normal tt)
          (Mjpeg.mkState (Mjpeg.key s) (Mjpeg.id (final (Mjpeg.findId ans s))) f'
             (Some x) None 0 (Mjpeg.image_src s))
          ((if Mjpeg.js_lt (Mjpeg.fps s) 0 then [Mjpeg.SetActive] else [])
           ++ [Mjpeg.SetInfo true (source_online x)
                 (Mjpeg.js_string f' ++ " fps dynamic")]
           ++ match Mjpeg.timer s with
              | Some h => [Mjpeg.ClearInterval h]
              | None => []
              end
           ++ [Mjpeg.OrganizeHook])%list
    | None =>
        match Mjpeg.timer s with
        | Some h =>
            mkRun (Normal tt)
              (Mjpeg.mkState (Mjpeg.key s) (Mjpeg.id (final (Mjpeg.findId ans s)))
                 (Mjpeg.fps s) (Some x) (Some h) (Mjpeg.timer_retries s)
                 (Mjpeg.image_src s))
              []
        | None =>
            mkRun (Normal tt)
              (Mjpeg.mkState (Mjpeg.key s) (Mjpeg.id (final (Mjpeg.findId ans s)))
                 (Mjpeg.fps s) (Some x) (Some (Mjpeg.interval_handle ans)) 10
                 (Mjpeg.image_src s))
              [Mjpeg.SetInterval (Mjpeg.interval_handle ans) 100]
        end
    end.
Proof.
  unfold Mjpeg.ensureStream. unfold bind at 1. cbv [modify]. cbv beta iota.
  unfold bind at 1. rewrite findId_run.
  assert (Hfr : final (Mjpeg.findId ans (Mjpeg.set_state (Some x) s))
                = Mjpeg.set_state (Some x) (final (Mjpeg.findId ans s)))
    by (destruct s as [k i f sn t n src]; mjpeg_cases; reflexivity).
  rewrite Hfr, (findId_frame ans s).
  set (i' := Mjpeg.id (final (Mjpeg.findId ans s))). clearbody i'.
  destruct s as [k i f sn t n src].
  mjpeg_eval. rewrite length_test.
  destruct (String.eqb i' "") eqn:Hi; mjpeg_eval.
  - destruct t; reflexivity.
  - destruct (Mjpeg.js_in i' (clients_stat x)) eqn:Hin.
    + destruct (js_in_true _ _ Hin) as [f' Hf]. rewrite Hf. mjpeg_eval.
      destruct (Mjpeg.js_lt f 0); destruct t; reflexivity.
    + rewrite (js_in_false _ _ Hin). destruct t; reflexivity.
Qed.

(** X18.  Whether the client counts as listed is decided on the id after
    the cookie was looked at, by the [in] test: an id counts that is a key
    of the snapshot's stats map or a name every object inherits.  If that id
    is not empty and counts, [ensureStream] takes the frame rate of the
    map's entry, which is [undefined] for a name that is only inherited,
    stops polling, shows the rate with the source's online flag, calls the
    activity callback exactly when the frame rate was a number below 0
    before, and ends with the layout hook.  Otherwise it only makes sure the
    polling interval runs: it starts one with a budget of 10 when none is
    held, and leaves a running one alone, budget included, without reporting
    anything. *)
Theorem ensureStream_listed_or_polling (ans : Mjpeg.Answers) (x : Snapshot)
    (s : Mjpeg.State) :
  let i := Mjpeg.id (final (Mjpeg.findId ans s)) in
  let r := Mjpeg.ensureStream ans (Some x) s in
  Mjpeg.id (final r) = i
  /\ Mjpeg.state (final r) = Some x
  /\ (i <> "" -> Mjpeg.js_in i (clients_stat x) = true ->
      Mjpeg.fps (final r) = clients_stat x !! i
      /\ Mjpeg.timer (final r) = None
      /\ Mjpeg.timer_retries (final r) = 0
      /\ (In Mjpeg.SetActive (calls r) <-> Mjpeg.js_lt (Mjpeg.fps s) 0 = true)
      /\ In (Mjpeg.SetInfo true (source_online x)
               (match clients_stat x !! i with
                | Some f' => pretty f'
                | None => "undefined"
                end ++ " fps dynamic"))
            (calls r)
      /\ last (calls r) = Some Mjpeg.OrganizeHook)
  /\ (i = "" \/ Mjpeg.js_in i (clients_stat x) = false ->
      Mjpeg.fps (final r) = Mjpeg.fps s
      /\ Mjpeg.timer (final r) <> None
      /\ (Mjpeg.timer s <> None ->
          Mjpeg.timer (final r) = Mjpeg.timer s
          /\ Mjpeg.timer_retries (final r) = Mjpeg.timer_retries s
          /\ calls r = [])
      /\ (Mjpeg.timer s = None ->
          Mjpeg.timer_retries (final r) = 10
          /\ calls r = [Mjpeg.SetInterval (Mjpeg.interval_handle ans) 100])).
Proof.
  intros i r. subst r. rewrite ensureStream_run. fold i. clearbody i.
  destruct s as [k i0 f sn t n src].
  cbn [Mjpeg.key Mjpeg.id Mjpeg.fps Mjpeg.state Mjpeg.timer Mjpeg.timer_retries
       Mjpeg.image_src].
  rewrite js_in_spec. unfold Mjpeg.entry_fps.
  destruct (String.eqb i "") eqn:Hi; tests_to_props.
  - subst i. destruct t; cbn; repeat split; intros; try congruence.
  - destruct (clients_stat x !! i) as [f0|] eqn:Hl;
      [|destruct (Mjpeg.inherited i) eqn:Hinh].
    + destruct (Mjpeg.js_lt f 0) eqn:Hlt; destruct t; cbn;
        repeat split; intros; try congruence; auto 10;
        try (destruct H; congruence);
        mjpeg_in_cases; try discriminate; intuition congruence.
    + destruct (Mjpeg.js_lt f 0) eqn:Hlt; destruct t; cbn;
        repeat split; intros; try congruence; auto 10;
        try (destruct H; congruence);
        mjpeg_in_cases; try discriminate; intuition congruence.
    + destruct t; cbn; repeat split; intros; try congruence.
Qed.

(** The sample the [in] test tells apart from a key of the map: cookie
    ["K/constructor"] on an empty stats map. *)
Example inherited_name_is_in :
  Mjpeg.js_in "constructor" (clients_stat Mjpeg.lists_nobody) = true
  /\ Mjpeg.js_in "42" (clients_stat Mjpeg.lists_nobody) = false
  /\ Mjpeg.js_in "42" (clients_stat Mjpeg.lists_42) = true
  /\ Mjpeg.entry_fps "constructor" (clients_stat Mjpeg.lists_42) = Some None
  /\ Mjpeg.entry_fps "42" (clients_stat Mjpeg.lists_42) = Some (Some 25).
Proof. repeat split; reflexivity. Qed.

Ltac fps_tests :=
  repeat match goal with
         | H : Mjpeg.js_ge (Some _) _ = _ |- _ => cbn [Mjpeg.js_ge] in H
         | H : Mjpeg.js_lt (Some _) _ = _ |- _ => cbn [Mjpeg.js_lt] in H
         | H : Mjpeg.js_ge None _ = true |- _ => discriminate H
         | H : Mjpeg.js_lt None _ = true |- _ => discriminate H
         end;
  tests_to_props.

Ltac or_cases :=
  repeat match goal with
         | |- ~ _ => intro
         | H : _ \/ _ |- _ => destruct H as [H | H]; try discriminate H
         | H : False |- _ => destruct H
         end.

(** X19.  Reports are made on changes only: whatever is called in whatever
    state, the activity callback is called at most once and only by an
    [ensureStream] that finds the streamer not active (frame rate a number
    below 0); the inactivity callback is called at most once and only when
    the streamer was active (frame rate a number that is 0 or more),
    together with the empty info line, and leaves the frame rate at -1; no
    call makes both reports. *)
Theorem reports_only_on_change (pf : Mjpeg.Platform) (ans : Mjpeg.Answers)
    (ev : Mjpeg.Event) (s : Mjpeg.State) :
  let r := Mjpeg.handler pf ans ev s in
  (length (List.filter Mjpeg.is_set_active (calls r)) <= 1)%nat
  /\ (length (List.filter Mjpeg.is_set_inactive (calls r)) <= 1)%nat
  /\ (In Mjpeg.SetActive (calls r) ->
      (exists f, Mjpeg.fps s = Some f /\ f < 0)
      /\ (exists x, ev = Mjpeg.EnsureStream (Some x))
      /\ ~ In Mjpeg.SetInactive (calls r))
  /\ (In Mjpeg.SetInactive (calls r) ->
      (exists f, Mjpeg.fps s = Some f /\ 0 <= f)
      /\ Mjpeg.fps (final r) = Some (-1)
      /\ In (Mjpeg.SetInfo false false "") (calls r)).
Proof.
  cbn zeta.
  destruct ev as [[x|] | |]; cbn [Mjpeg.handler].
  - rewrite ensureStream_run.
    set (i := Mjpeg.id (final (Mjpeg.findId ans s))). clearbody i.
    destruct s as [k i0 f sn t n src].
    cbn [Mjpeg.key Mjpeg.id Mjpeg.fps Mjpeg.state Mjpeg.timer Mjpeg.timer_retries
         Mjpeg.image_src].
    destruct (if String.eqb i "" then None else Mjpeg.entry_fps i _) as [f0|].
    + destruct f as [f|]; cbn [Mjpeg.js_lt]; [destruct (Z.ltb_spec f 0)|];
        destruct t; cbn;
        repeat split; intros; try lia; eauto; or_cases; try lia.
    + destruct t; cbn; repeat split; intros; try lia; or_cases.
  - destruct s as [k i [f|] sn t n src]; cbn [Mjpeg.js_ge Mjpeg.js_lt];
      mjpeg_cases; fps_tests; cbn; repeat split; intros; try lia; eauto;
      or_cases; try lia.
  - destruct s as [k i [f|] sn t n src]; cbn [Mjpeg.js_ge Mjpeg.js_lt];
      mjpeg_cases; fps_tests; cbn; repeat split; intros; try lia; eauto;
      or_cases; try lia.
  - tick_cases s; destruct t; destruct f as [f|]; cbn [Mjpeg.js_ge];
      try match goal with
          | |- context [0 <=? ?z] => destruct (Z.leb_spec 0 z)
          end;
      cbn; repeat split; intros; try lia; eauto; or_cases; try lia.
Qed.

(** ** HTTP MJPEG streamer: the session key *)

(** X20.  A client id never outlives the session key it was resolved for:
    whatever is called in whatever state, the key either stays, or it is
    replaced by a freshly drawn one and the call leaves the streamer without
    snapshot, id, frame rate, timer and budget.  A resolved id is never
    changed into another id: after the call it is the same or empty. *)
Theorem key_rotation_resets_session (pf : Mjpeg.Platform) (ans : Mjpeg.Answers)
    (ev : Mjpeg.Event) (s : Mjpeg.State) :
  let r := Mjpeg.handler pf ans ev s in
  (Mjpeg.key (final r) = Mjpeg.key s
   \/ (Mjpeg.key (final r) = Mjpeg.random_id ans
       /\ Mjpeg.id (final r) = ""
       /\ Mjpeg.fps (final r) = Some (-1)
       /\ Mjpeg.state (final r) = None
       /\ Mjpeg.timer (final r) = None
       /\ Mjpeg.timer_retries (final r) = 0))
  /\ (Mjpeg.id s <> "" ->
      Mjpeg.id (final r) = Mjpeg.id s \/ Mjpeg.id (final r) = "").
Proof.
  cbn zeta.
  destruct ev as [[x|] | |]; cbn [Mjpeg.handler].
  - rewrite ensureStream_run.
    destruct (String.eqb (Mjpeg.id s) "") eqn:Hi.
    + apply String.eqb_eq in Hi.
      destruct (if String.eqb _ "" then None else _); [|destruct (Mjpeg.timer s)];
        cbn; split; auto; congruence.
    + apply String.eqb_neq in Hi. rewrite (findId_resolved ans s Hi).
      destruct (if String.eqb _ "" then None else _); [|destruct (Mjpeg.timer s)];
        cbn; split; auto.
  - destruct s as [k i f sn t n src].
    mjpeg_cases; cbn; split; auto 10.
  - destruct s as [k i f sn t n src].
    mjpeg_cases; cbn; split; auto 10.
  - rewrite checkStream_run.
    destruct (negb _ && _) eqn:Hb.
    + cbn [final]. unfold Mjpeg.set_timer_retries.
      cbn [Mjpeg.key Mjpeg.id]. rewrite (findId_frame ans s).
      cbn [Mjpeg.set_id Mjpeg.key Mjpeg.id].
      split; [left; reflexivity|]. intros Hi.
      rewrite (findId_resolved ans s Hi). left. reflexivity.
    + unfold Mjpeg.failure_path. cbn. split; auto 10.
Qed.

